(** * JVMCICompiler: bootstrap and lifecycle of the JVMCI compiler backend

    Shallow embedding of [src/hotspot/share/jvmci/jvmciCompiler.cpp].

    The compiler object is a record of its five fields.  Everything the file
    calls but does not define (the compile broker, the JVMCI runtime bridge,
    the system dictionary, the clock, the compilation policy) is an interface
    [External] over an abstract world [W]; the model threads the world
    through every external call and records the call in a trace.  The
    bootstrap poll loop, which has no bound in the source, takes fuel: one
    unit per [os::sleep].

    The build modelled is a debug build: [assert] is checked and the code
    under [#ifndef PRODUCT] is present.  Other threads act on the compiler
    object while the bootstrapping thread sleeps, and only then.  The two
    timer reports [print_timers] and [print_hosted_timers] format
    floating-point seconds and are left out. *)

From Stdlib Require Import ZArith List Bool String Lia.
From Stdlib Require Import Permutation.
Import ListNotations.
Local Open Scope Z_scope.

(** ** Machine integers *)

(** A C [int] is 32 bits, two's complement; [Atomic::inc] wraps. *)
Definition INT_MIN : Z := -2147483648.
Definition INT_MAX : Z := 2147483647.

Definition wrap_int (x : Z) : Z := (x + 2147483648) mod 4294967296 - 2147483648.

(** A [jlong] is 64 bits, two's complement. *)
Definition wrap_jlong (x : Z) : Z :=
  (x + 9223372036854775808) mod 18446744073709551616 - 9223372036854775808.

Definition is_int (x : Z) : Prop := INT_MIN <= x <= INT_MAX.

(** ** Data model *)

(** An [oop] is the address of a Java object; [NULL] is address 0.  The
    source compares oops with [==]. *)
Definition oop : Type := Z.
Definition NULL : oop := 0.
Definition oop_eqb (a b : oop) : bool := a =? b.

(** [ModuleEntry::module()] is the [java.lang.Module] oop of the entry. *)
Record ModuleEntry : Type := { ModuleEntry_module : oop }.

(** [InstanceKlass::module()] is the module entry of the class. *)
Record InstanceKlass : Type := { InstanceKlass_module : ModuleEntry }.

(** The part of a [Method] this file looks at. *)
Record Method : Type := {
  name : string;
  is_native : bool;
  is_static : bool;
  is_initializer : bool;
  method_holder : InstanceKlass
}.

(** Modelled from the spec: the execution modes of [Arguments::mode()]
    (runtime/arguments.hpp is not part of the sources); [_int] is the
    pure-interpreter mode. *)
Inductive Mode : Type := _int | _mixed | _comp.

Definition Mode_eqb (a b : Mode) : bool :=
  match a, b with
  | _int, _int | _mixed, _mixed | _comp, _comp => true
  | _, _ => false
  end.

(** Modelled from the spec: the compile tiers (the [CompLevel] enumeration is
    not part of the sources); the highest tier denotes full optimization. *)
Inductive CompLevel : Type :=
| CompLevel_none
| CompLevel_simple
| CompLevel_limited_profile
| CompLevel_full_profile
| CompLevel_full_optimization.

Definition CompLevel_rank (l : CompLevel) : Z :=
  match l with
  | CompLevel_none => 0
  | CompLevel_simple => 1
  | CompLevel_limited_profile => 2
  | CompLevel_full_profile => 3
  | CompLevel_full_optimization => 4
  end.

(** Modelled from the spec: the reasons a job can be tagged with
    ([CompileTask::CompileReason] is not part of the sources); bootstrap jobs
    carry [Reason_Bootstrap]. *)
Inductive CompileReason : Type :=
| Reason_None
| Reason_InvocationCount
| Reason_BackedgeCount
| Reason_Tiered
| Reason_CTW
| Reason_Replay
| Reason_Whitebox
| Reason_MustBeCompiled
| Reason_Bootstrap.

(** The entry bci of a normal (not on-stack-replacement) compilation. *)
Definition InvocationEntryBci : Z := -1.

(** The arguments of one [CompileBroker::compile_method] call. *)
Record CompileJob : Type := {
  job_method : Method;
  job_osr_bci : Z;
  job_comp_level : CompLevel;
  job_hot_method : Method;
  job_hot_count : Z;
  job_reason : CompileReason
}.

(** The VM flags the file reads.  [CompileTheWorld] is the only one it
    writes (scoped, in [bootstrap]). *)
Record Globals : Type := {
  UseCompiler : bool;
  EnableJVMCI : bool;
  UseJVMCICompiler : bool;
  UseJVMCINativeLibrary : bool;
  PrintBootstrap : bool;
  CompileTheWorld : bool;
  Arguments_mode : Mode
}.

Definition set_CompileTheWorld (b : bool) (g : Globals) : Globals :=
  {| UseCompiler := UseCompiler g;
     EnableJVMCI := EnableJVMCI g;
     UseJVMCICompiler := UseJVMCICompiler g;
     UseJVMCINativeLibrary := UseJVMCINativeLibrary g;
     PrintBootstrap := PrintBootstrap g;
     CompileTheWorld := b;
     Arguments_mode := Arguments_mode g |}.

(** Modelled from the spec: the lifecycle state of [AbstractCompiler]
    (abstractCompiler.hpp is not part of the sources); the spec gives
    [LifecycleState] the two values Uninitialized and Initialized. *)
Inductive CompilerState : Type := uninitialized | initialized.

(** The fields of a [JVMCICompiler] object: the inherited state and the four
    fields the constructor sets.  The fields are declared in
    jvmciCompiler.hpp, which is not part of the sources; the source prints
    [_methods_compiled] with [%d] and compares it with the [int] [z], so the
    counters are C [int]s here. *)
Record JVMCICompiler : Type := {
  _compiler_state : CompilerState;
  _bootstrapping : bool;
  _bootstrap_compilation_request_handled : bool;
  _methods_compiled : Z;
  _global_compilation_ticks : Z
}.

(** A [JVMCIObject] wraps a handle; [is_null] tests the handle. *)
Record JVMCIObject : Type := { JVMCIObject_handle : Z; JVMCIObject_is_hotspot : bool }.

Definition is_null (o : JVMCIObject) : bool := JVMCIObject_handle o =? 0.

(** How a call can end: it returns, or the VM stops with an error report.
    The state at the moment of the error is kept for inspection. *)
Inductive VMError : Type :=
| ShouldNotReachHere_error
| assert_failed (msg : string)
| SIGSEGV.

Inductive Outcome (A : Type) : Type :=
| Returns (a : A)
| Fatal (e : VMError) (a : A)
| Polling (a : A).

Arguments Returns {A} a.
Arguments Fatal {A} e a.
Arguments Polling {A} a.

Definition state_of {A : Type} (o : Outcome A) : A :=
  match o with
  | Returns a => a
  | Fatal _ a => a
  | Polling a => a
  end.

(** [Polling] is not an end: the fuel ran out inside the poll loop. *)
Definition finished {A : Type} (o : Outcome A) : bool :=
  match o with
  | Polling _ => false
  | _ => true
  end.

(** Modelled from the spec: the [assert] macro of utilities/debug.hpp (not
    part of the sources), as the check that keeps the spec's invariant of one
    instance per process: when [cond] is false the VM stops in state [a],
    otherwise the code [k] after the assertion runs. *)
Definition vmassert {A : Type} (cond : bool) (msg : string) (a : A) (k : Outcome A)
  : Outcome A :=
  if cond then k else Fatal (assert_failed msg) a.

(** Modelled from the spec: the [ShouldNotReachHere()] macro of
    utilities/debug.hpp (not part of the sources) stops the process with the
    fatal "unreachable" diagnostic. *)
Definition ShouldNotReachHere {A : Type} (a : A) : Outcome A :=
  Fatal ShouldNotReachHere_error a.

(** ** The compiler object *)

Definition set_state (st : CompilerState) (c : JVMCICompiler) : JVMCICompiler :=
  {| _compiler_state := st;
     _bootstrapping := _bootstrapping c;
     _bootstrap_compilation_request_handled := _bootstrap_compilation_request_handled c;
     _methods_compiled := _methods_compiled c;
     _global_compilation_ticks := _global_compilation_ticks c |}.

Definition set_bootstrapping (b : bool) (c : JVMCICompiler) : JVMCICompiler :=
  {| _compiler_state := _compiler_state c;
     _bootstrapping := b;
     _bootstrap_compilation_request_handled := _bootstrap_compilation_request_handled c;
     _methods_compiled := _methods_compiled c;
     _global_compilation_ticks := _global_compilation_ticks c |}.

(** Modelled from the spec: [AbstractCompiler::should_perform_init()], the
    "already performed" check of the lifecycle state (abstractCompiler.cpp is
    not part of the sources). *)
Definition should_perform_init (c : JVMCICompiler) : bool :=
  match _compiler_state c with
  | uninitialized => true
  | initialized => false
  end.

(** Modelled from the spec: [set_bootstrap_compilation_request_handled()] of
    jvmciCompiler.hpp, the external signal that sets the
    BootstrapRequestHandledFlag once the first bootstrap compile request has
    been accepted. *)
Definition set_bootstrap_compilation_request_handled (c : JVMCICompiler) : JVMCICompiler :=
  {| _compiler_state := _compiler_state c;
     _bootstrapping := _bootstrapping c;
     _bootstrap_compilation_request_handled := true;
     _methods_compiled := _methods_compiled c;
     _global_compilation_ticks := _global_compilation_ticks c |}.

(** [JVMCICompiler::inc_methods_compiled]: two [Atomic::inc]s. *)
Definition inc_methods_compiled (c : JVMCICompiler) : JVMCICompiler :=
  {| _compiler_state := _compiler_state c;
     _bootstrapping := _bootstrapping c;
     _bootstrap_compilation_request_handled := _bootstrap_compilation_request_handled c;
     _methods_compiled := wrap_int (_methods_compiled c + 1);
     _global_compilation_ticks := wrap_int (_global_compilation_ticks c + 1) |}.

(** [JVMCICompiler::inc_global_compilation_ticks]: one [Atomic::inc]. *)
Definition inc_global_compilation_ticks (c : JVMCICompiler) : JVMCICompiler :=
  {| _compiler_state := _compiler_state c;
     _bootstrapping := _bootstrapping c;
     _bootstrap_compilation_request_handled := _bootstrap_compilation_request_handled c;
     _methods_compiled := _methods_compiled c;
     _global_compilation_ticks := wrap_int (_global_compilation_ticks c + 1) |}.

(** *** Construction *)

Definition address : Type := Z.

(** The static [JVMCICompiler::_instance]: [None] is [NULL]. *)
Record Statics : Type := { _instance : option address }.

(** The static initialiser [_instance = NULL]. *)
Definition process_start : Statics := {| _instance := None |}.

(** What the constructor body stores in the object, after the base class
    constructor [AbstractCompiler(compiler_jvmci)] has left the state
    uninitialized. *)
Definition fresh_compiler : JVMCICompiler :=
  {| _compiler_state := uninitialized;
     _bootstrapping := false;
     _bootstrap_compilation_request_handled := false;
     _methods_compiled := 0;
     _global_compilation_ticks := 0 |}.

Definition is_NULL (p : option address) : bool :=
  match p with
  | None => true
  | Some _ => false
  end.

(** [JVMCICompiler::JVMCICompiler()], run on the object at address [this]:
    the four assignments, the assertion, and [_instance = this]. *)
Definition JVMCICompiler_new (this : address) (st : Statics)
  : Outcome (JVMCICompiler * Statics) :=
  let obj := fresh_compiler in
  vmassert (is_NULL (_instance st)) "only one instance allowed" (obj, st)
    (Returns (obj, {| _instance := Some this |})).

(** A process that constructs compilers at the given addresses, one after the
    other, for as long as the VM is alive; the result lists the addresses
    that were stored in [_instance]. *)
Fixpoint registrations (ptrs : list address) (st : Statics) : list address :=
  match ptrs with
  | [] => []
  | this :: rest =>
      match JVMCICompiler_new this st with
      | Returns (_, st') => this :: registrations rest st'
      | _ => []
      end
  end.

(** ** The outside world *)

(** What compile-worker threads call on the compiler object while the
    bootstrapping thread sleeps. *)
Inductive WorkerCall : Type :=
| Call_inc_methods_compiled
| Call_inc_global_compilation_ticks
| Call_set_bootstrap_compilation_request_handled.

Definition apply_worker_call (c : JVMCICompiler) (k : WorkerCall) : JVMCICompiler :=
  match k with
  | Call_inc_methods_compiled => inc_methods_compiled c
  | Call_inc_global_compilation_ticks => inc_global_compilation_ticks c
  | Call_set_bootstrap_compilation_request_handled =>
      set_bootstrap_compilation_request_handled c
  end.

(** A pointer to the [JVMCIRuntime]; [JVMCI::java_runtime()] yields [None]
    for [NULL]. *)
Definition JVMCIRuntime : Type := address.

(** The collaborators of the file, over a world [W] that holds the compile
    queue, the Java heap, the clock and the current thread with its pending
    exception. *)
Class External (W : Type) : Type := {
  (** [SystemDictionary::Object_klass()->methods()] *)
  Object_klass_methods : W -> list Method;
  (** [CompileBroker::compile_method(..., THREAD)]; the result is dropped *)
  CompileBroker_compile_method : CompileJob -> W -> W;
  (** [CompileBroker::queue_size(level)] *)
  CompileBroker_queue_size : CompLevel -> W -> Z;
  (** [os::sleep(THREAD, ms, interruptible)]: time passes, and the worker
      threads make their calls *)
  os_sleep : Z -> bool -> W -> W * list WorkerCall;
  (** [os::javaTimeMillis()] *)
  os_javaTimeMillis : W -> Z;
  (** [JVMCI::java_runtime()] *)
  JVMCI_java_runtime : W -> option JVMCIRuntime;
  (** [JVMCIRuntime::bootstrap_finished(TRAPS)]: an upcall into Java code,
      which can ask for compilations and so have the policy consult the
      compiler object; it is given the object as it is during the call *)
  JVMCIRuntime_bootstrap_finished : JVMCIRuntime -> JVMCICompiler -> W -> W;
  (** [HAS_PENDING_EXCEPTION] on the current thread *)
  HAS_PENDING_EXCEPTION : W -> bool;
  (** [JVMCIRuntime::probe_HotSpotJVMCIRuntime()] *)
  probe_HotSpotJVMCIRuntime : JVMCIRuntime -> W -> JVMCIObject;
  (** [HotSpotJVMCI::resolve(obj)] *)
  HotSpotJVMCI_resolve : JVMCIObject -> W -> oop;
  (** [HotSpotJVMCIRuntime::excludeFromJVMCICompilation(env, obj)]: the
      elements of the array, or [None] for a null array *)
  excludeFromJVMCICompilation : oop -> W -> option (list oop);
  (** [CompilationPolicy::completed_vm_startup()] *)
  CompilationPolicy_completed_vm_startup : W -> W
}.

(** The calls the model makes on the outside world, in order. *)
Inductive Event : Type :=
| Tty_print (s : string)
| Tty_print_raw (s : string)
| Tty_print_cr_bootstrap (elapsed_ms : Z) (methods_compiled : Z)
| Os_sleep (ms : Z) (interruptible : bool)
| Concurrent (k : WorkerCall)
| Broker_compile_method (job : CompileJob)
| Runtime_bootstrap_finished (rt : JVMCIRuntime)
| Policy_completed_vm_startup.

(** The VM as this file sees it. *)
Record State (W : Type) : Type := {
  compiler : JVMCICompiler;
  flags : Globals;
  world : W;
  trace : list Event
}.

Arguments compiler {W} s.
Arguments flags {W} s.
Arguments world {W} s.
Arguments trace {W} s.

Section Operations.

Context {W : Type} `{External W}.

Definition with_compiler (c : JVMCICompiler) (s : State W) : State W :=
  {| compiler := c; flags := flags s; world := world s; trace := trace s |}.

Definition with_flags (g : Globals) (s : State W) : State W :=
  {| compiler := compiler s; flags := g; world := world s; trace := trace s |}.

(** An external call: the world moves and the call is recorded. *)
Definition call (e : Event) (w : W) (s : State W) : State W :=
  {| compiler := compiler s; flags := flags s; world := w; trace := trace s ++ [e] |}.

(** Output on [tty]: only recorded. *)
Definition emit (e : Event) (s : State W) : State W := call e (world s) s.

(** *** initialize *)

Definition initialize (s : State W) : State W :=
  if negb (UseCompiler (flags s))
     || negb (EnableJVMCI (flags s))
     || negb (UseJVMCICompiler (flags s))
     || negb (should_perform_init (compiler s))
  then s
  else
    let s1 := with_compiler (set_state initialized (compiler s)) s in
    call Policy_completed_vm_startup
         (CompilationPolicy_completed_vm_startup (world s1)) s1.


(** *** force_comp_at_level_simple *)

(** The [for] loop over [excludeModules]: true at the first element that is
    the module oop, false when the array is exhausted. *)
Fixpoint exclude_loop (excludeModules : list oop) (module : oop) : bool :=
  match excludeModules with
  | [] => false
  | obj :: rest => if oop_eqb obj module then true else exclude_loop rest module
  end.

Definition force_comp_at_level_simple (c : JVMCICompiler) (g : Globals) (w : W)
    (method : Method) : bool :=
  if _bootstrapping c then false
  else if UseJVMCINativeLibrary g then false
  else
    match JVMCI_java_runtime w with
    | Some runtime =>
        let receiver := probe_HotSpotJVMCIRuntime runtime w in
        if is_null receiver then false
        else
          match excludeFromJVMCICompilation (HotSpotJVMCI_resolve receiver w) w with
          | Some excludeModules =>
              let moduleEntry := InstanceKlass_module (method_holder method) in
              exclude_loop excludeModules (ModuleEntry_module moduleEntry)
          | None => false
          end
    | None => false
    end.

(** *** compile_method *)

(** [JVMCICompiler::compile_method]; the arguments are the addresses of the
    [ciEnv], the [ciMethod] and the [DirectiveSet], and the entry bci. *)
Definition compile_method (env target : address) (entry_bci : Z) (directive : address)
    (s : State W) : Outcome (State W) :=
  ShouldNotReachHere s.

(** *** bootstrap *)

(** [os::sleep(THREAD, ms, interruptible)]: the world moves on, and the calls
    the worker threads made meanwhile take effect on the compiler object. *)
Definition sleep (ms : Z) (interruptible : bool) (s : State W) : State W :=
  let '(w', calls) := os_sleep ms interruptible (world s) in
  {| compiler := fold_left apply_worker_call calls (compiler s);
     flags := flags s;
     world := w';
     trace := trace s ++ Os_sleep ms interruptible :: map Concurrent calls |}.

(** The job submitted for a baseline method [mh]. *)
Definition bootstrap_job (mh : Method) : CompileJob :=
  let hot_count := 10 in
  {| job_method := mh;
     job_osr_bci := InvocationEntryBci;
     job_comp_level := CompLevel_full_optimization;
     job_hot_method := mh;
     job_hot_count := hot_count;
     job_reason := Reason_Bootstrap |}.

(** The condition of the [if] in the submission loop. *)
Definition is_baseline (mh : Method) : bool :=
  negb (is_native mh) && negb (is_static mh) && negb (is_initializer mh).

(** The [for] loop over [objectMethods], from index 0 to [len - 1]. *)
Fixpoint submit_object_methods (objectMethods : list Method) (s : State W) : State W :=
  match objectMethods with
  | [] => s
  | mh :: rest =>
      let s1 :=
        if is_baseline mh
        then call (Broker_compile_method (bootstrap_job mh))
                  (CompileBroker_compile_method (bootstrap_job mh) (world s)) s
        else s in
      submit_object_methods rest s1
  end.

(** The [while (z < (_methods_compiled / 100))] loop; [n] bounds the number
    of iterations.  C division truncates, hence [Z.quot]. *)
Fixpoint print_dots (n : nat) (z : Z) (s : State W) : Z * State W :=
  match n with
  | O => (z, s)
  | S n' =>
      if z <? Z.quot (_methods_compiled (compiler s)) 100
      then print_dots n' (z + 1) (emit (Tty_print_raw ".") s)
      else (z, s)
  end.

(** The loop run to its end: it needs [_methods_compiled / 100 - z]
    iterations, see [print_progress_done]. *)
Definition print_progress (z : Z) (s : State W) : Z * State W :=
  print_dots (Z.to_nat (Z.quot (_methods_compiled (compiler s)) 100 - z)) z s.

(** The two nested [do ... while] loops, one unit of fuel per [os::sleep].
    A pass that finds the inner condition true sleeps again with
    [first_round] still true; a pass that finds it false runs the rest of
    the outer body and, when [qsize != 0], comes back with [first_round]
    false, which makes the inner loop a single sleep from then on. *)
Fixpoint poll (fuel : nat) (first_round : bool) (z : Z) (s : State W)
  : Outcome (State W) :=
  match fuel with
  | O => Polling s
  | S fuel' =>
      let s1 := sleep 100 true s in
      let qsize := CompileBroker_queue_size CompLevel_full_optimization (world s1) in
      if negb (_bootstrap_compilation_request_handled (compiler s1))
         && first_round && (qsize =? 0)
      then poll fuel' first_round z s1
      else
        let '(z', s2) :=
          if PrintBootstrap (flags s1) then print_progress z s1 else (z, s1) in
        if negb (qsize =? 0) then poll fuel' false z' s2 else Returns s2
  end.

(** The statements after the poll loop. *)
Definition bootstrap_finish (start : Z) (ctw : bool) (s : State W) : Outcome (State W) :=
  let s1 :=
    if PrintBootstrap (flags s)
    then emit (Tty_print_cr_bootstrap
                 (wrap_jlong (os_javaTimeMillis (world s) - start))
                 (_methods_compiled (compiler s))) s
    else s in
  let s2 := with_compiler (set_bootstrapping false (compiler s1)) s1 in
  match JVMCI_java_runtime (world s2) with
  | None => Fatal SIGSEGV s2
  | Some runtime =>
      let s3 := call (Runtime_bootstrap_finished runtime)
                     (JVMCIRuntime_bootstrap_finished runtime (compiler s2) (world s2))
                     s2 in
      (* both arms of CHECK return; ~FlagSetting restores CompileTheWorld *)
      Returns (with_flags (set_CompileTheWorld ctw (flags s3)) s3)
  end.

(** [JVMCICompiler::bootstrap(TRAPS)] of a non-product build, where
    [FlagSetting ctwOff(CompileTheWorld, false)] is compiled in.  The
    [ResourceMark] and [HandleMark] scopes manage memory only. *)
Definition bootstrap (fuel : nat) (s : State W) : Outcome (State W) :=
  if Mode_eqb (Arguments_mode (flags s)) _int then Returns s
  else
    let ctw := CompileTheWorld (flags s) in
    let s1 := with_flags (set_CompileTheWorld false (flags s)) s in
    let s2 := with_compiler (set_bootstrapping true (compiler s1)) s1 in
    let s3 := if PrintBootstrap (flags s2) then emit (Tty_print "Bootstrapping JVMCI") s2 else s2 in
    let start := os_javaTimeMillis (world s3) in
    let objectMethods := Object_klass_methods (world s3) in
    let s4 := submit_object_methods objectMethods s3 in
    match poll fuel true 0 s4 with
    | Returns s5 => bootstrap_finish start ctw s5
    | other => other
    end.

(** [bootstrap] terminates when some amount of fuel lets it end. *)
Definition bootstrap_terminates (s : State W) : Prop :=
  exists fuel, finished (bootstrap fuel s) = true.

End Operations.

(** ** A simulated VM

    A small concrete world to run the operations on: a compile queue that
    takes every job and whose single worker finishes one job per sleep, a
    clock that advances by the time slept, and a runtime bridge with a fixed
    exclusion list. *)

Record Sim : Type := {
  sim_methods : list Method;
  sim_queue : Z;
  sim_clock : Z;
  sim_runtime : option JVMCIRuntime;
  sim_receiver : JVMCIObject;
  sim_excluded : option (list oop);
  sim_finish_fails : bool;
  sim_pending_exception : bool;
  sim_startup_completed : bool;
  sim_finish_saw_bootstrapping : option bool
}.

Definition sim_compile_method (job : CompileJob) (w : Sim) : Sim :=
  {| sim_methods := sim_methods w;
     sim_queue := sim_queue w + 1;
     sim_clock := sim_clock w;
     sim_runtime := sim_runtime w;
     sim_receiver := sim_receiver w;
     sim_excluded := sim_excluded w;
     sim_finish_fails := sim_finish_fails w;
     sim_pending_exception := sim_pending_exception w;
     sim_startup_completed := sim_startup_completed w;
     sim_finish_saw_bootstrapping := sim_finish_saw_bootstrapping w |}.

Definition sim_queue_size (l : CompLevel) (w : Sim) : Z :=
  match l with
  | CompLevel_full_optimization => sim_queue w
  | _ => 0
  end.

Definition sim_sleep (ms : Z) (interruptible : bool) (w : Sim) : Sim * list WorkerCall :=
  let busy := 0 <? sim_queue w in
  ({| sim_methods := sim_methods w;
      sim_queue := if busy then sim_queue w - 1 else sim_queue w;
      sim_clock := sim_clock w + ms;
      sim_runtime := sim_runtime w;
      sim_receiver := sim_receiver w;
      sim_excluded := sim_excluded w;
      sim_finish_fails := sim_finish_fails w;
      sim_pending_exception := sim_pending_exception w;
      sim_startup_completed := sim_startup_completed w;
      sim_finish_saw_bootstrapping := sim_finish_saw_bootstrapping w |},
   if busy
   then [Call_set_bootstrap_compilation_request_handled; Call_inc_methods_compiled]
   else []).

Definition sim_bootstrap_finished (rt : JVMCIRuntime) (c : JVMCICompiler) (w : Sim) : Sim :=
  {| sim_methods := sim_methods w;
     sim_queue := sim_queue w;
     sim_clock := sim_clock w;
     sim_runtime := sim_runtime w;
     sim_receiver := sim_receiver w;
     sim_excluded := sim_excluded w;
     sim_finish_fails := sim_finish_fails w;
     sim_pending_exception := sim_pending_exception w || sim_finish_fails w;
     sim_startup_completed := sim_startup_completed w;
     sim_finish_saw_bootstrapping := Some (_bootstrapping c) |}.

Definition sim_completed_vm_startup (w : Sim) : Sim :=
  {| sim_methods := sim_methods w;
     sim_queue := sim_queue w;
     sim_clock := sim_clock w;
     sim_runtime := sim_runtime w;
     sim_receiver := sim_receiver w;
     sim_excluded := sim_excluded w;
     sim_finish_fails := sim_finish_fails w;
     sim_pending_exception := sim_pending_exception w;
     sim_startup_completed := true;
     sim_finish_saw_bootstrapping := sim_finish_saw_bootstrapping w |}.

#[export] Instance Sim_External : External Sim := {
  Object_klass_methods := sim_methods;
  CompileBroker_compile_method := sim_compile_method;
  CompileBroker_queue_size := sim_queue_size;
  os_sleep := sim_sleep;
  os_javaTimeMillis := sim_clock;
  JVMCI_java_runtime := sim_runtime;
  JVMCIRuntime_bootstrap_finished := sim_bootstrap_finished;
  HAS_PENDING_EXCEPTION := sim_pending_exception;
  probe_HotSpotJVMCIRuntime := fun _ w => sim_receiver w;
  HotSpotJVMCI_resolve := fun o _ => JVMCIObject_handle o;
  excludeFromJVMCICompilation := fun _ w => sim_excluded w;
  CompilationPolicy_completed_vm_startup := sim_completed_vm_startup
}.

(** Some methods of [java.lang.Object], which lives in module [java.base]
    (here at address 4096). *)
Definition java_base : oop := 4096.
Definition jdk_internal_vm_compiler : oop := 8192.

Definition Object_klass : InstanceKlass :=
  {| InstanceKlass_module := {| ModuleEntry_module := java_base |} |}.

Definition mk_method (n : string) (native static init : bool) : Method :=
  {| name := n; is_native := native; is_static := static;
     is_initializer := init; method_holder := Object_klass |}.

Definition Object_init : Method := mk_method "<init>" false false true.
Definition Object_registerNatives : Method := mk_method "registerNatives" true true false.
Definition Object_hashCode : Method := mk_method "hashCode" true false false.
Definition Object_equals : Method := mk_method "equals" false false false.
Definition Object_toString : Method := mk_method "toString" false false false.
Definition Object_finalize : Method := mk_method "finalize" false false false.

Definition Object_methods : list Method :=
  [Object_init; Object_registerNatives; Object_hashCode; Object_equals;
   Object_toString; Object_finalize].

Definition sim_world (methods : list Method) (finish_fails : bool) : Sim :=
  {| sim_methods := methods;
     sim_queue := 0;
     sim_clock := 1000;
     sim_runtime := Some 64;
     sim_receiver := {| JVMCIObject_handle := 128; JVMCIObject_is_hotspot := true |};
     sim_excluded := Some [jdk_internal_vm_compiler; java_base];
     sim_finish_fails := finish_fails;
     sim_pending_exception := false;
     sim_startup_completed := false;
     sim_finish_saw_bootstrapping := None |}.

Definition sim_flags (m : Mode) (print : bool) : Globals :=
  {| UseCompiler := true;
     EnableJVMCI := true;
     UseJVMCICompiler := true;
     UseJVMCINativeLibrary := false;
     PrintBootstrap := print;
     CompileTheWorld := false;
     Arguments_mode := m |}.

Definition sim_state (methods : list Method) (finish_fails : bool) (m : Mode) : State Sim :=
  {| compiler := fresh_compiler;
     flags := sim_flags m true;
     world := sim_world methods finish_fails;
     trace := [] |}.

(** A VM whose [java.lang.Object] has no baseline method: nothing is ever
    submitted, the queue stays empty and no worker calls in. *)
Definition idle_state : State Sim := sim_state [Object_init; Object_hashCode] false _mixed.

(** [idle_state] with the handled flag already set at entry. *)
Definition handled_idle_state : State Sim :=
  with_compiler (set_bootstrap_compilation_request_handled fresh_compiler) idle_state.

(** A world that differs from [sim_world] in its runtime bridge only. *)
Definition sim_bridge (runtime : option JVMCIRuntime) (handle : Z)
    (excluded : option (list oop)) : Sim :=
  {| sim_methods := Object_methods;
     sim_queue := 0;
     sim_clock := 1000;
     sim_runtime := runtime;
     sim_receiver := {| JVMCIObject_handle := handle; JVMCIObject_is_hotspot := true |};
     sim_excluded := excluded;
     sim_finish_fails := false;
     sim_pending_exception := false;
     sim_startup_completed := false;
     sim_finish_saw_bootstrapping := None |}.

(** The flags of [sim_flags] in native-library mode. *)
Definition native_library_flags : Globals :=
  {| UseCompiler := true;
     EnableJVMCI := true;
     UseJVMCICompiler := true;
     UseJVMCINativeLibrary := true;
     PrintBootstrap := false;
     CompileTheWorld := false;
     Arguments_mode := _mixed |}.

(** Both counters at the largest [int]. *)
Definition saturated_compiler : JVMCICompiler :=
  {| _compiler_state := initialized;
     _bootstrapping := false;
     _bootstrap_compilation_request_handled := true;
     _methods_compiled := INT_MAX;
     _global_compilation_ticks := INT_MAX |}.

(** ** Observations on traces and runs *)

(** The jobs handed to [CompileBroker::compile_method], in order. *)
Fixpoint submitted (tr : list Event) : list CompileJob :=
  match tr with
  | [] => []
  | Broker_compile_method job :: rest => job :: submitted rest
  | _ :: rest => submitted rest
  end.

(** The calls of the worker threads, in order. *)
Fixpoint worker_calls (tr : list Event) : list WorkerCall :=
  match tr with
  | [] => []
  | Concurrent k :: rest => k :: worker_calls rest
  | _ :: rest => worker_calls rest
  end.

(** The number of [completed_vm_startup] notifications. *)
Fixpoint startup_notifications (tr : list Event) : nat :=
  match tr with
  | [] => O
  | Policy_completed_vm_startup :: rest => S (startup_notifications rest)
  | _ :: rest => startup_notifications rest
  end.

(** The number of [bootstrap_finished] notifications. *)
Fixpoint finish_notifications (tr : list Event) : nat :=
  match tr with
  | [] => O
  | Runtime_bootstrap_finished _ :: rest => S (finish_notifications rest)
  | _ :: rest => finish_notifications rest
  end.

(** The events of the poll loop: sleeps, worker calls and progress dots. *)
Definition poll_event (e : Event) : bool :=
  match e with
  | Os_sleep _ _ | Concurrent _ | Tty_print_raw _ => true
  | _ => false
  end.


(** All three flags that gate [initialize] are on. *)
Definition jvmci_enabled (g : Globals) : bool :=
  UseCompiler g && EnableJVMCI g && UseJVMCICompiler g.

Section Runs.

Context {W : Type} `{External W}.


(** The world after [k] sleeps of the poll loop. *)
Fixpoint world_after (k : nat) (w : W) : W :=
  match k with
  | O => w
  | S k' => world_after k' (fst (os_sleep 100 true w))
  end.

(** The worker calls made during sleep number [k] (counting from 0). *)
Definition calls_during (k : nat) (w : W) : list WorkerCall :=
  snd (os_sleep 100 true (world_after k w)).

(** Every poll finds the highest-tier queue empty. *)
Definition queue_stays_empty (w : W) : Prop :=
  forall k, CompileBroker_queue_size CompLevel_full_optimization (world_after (S k) w) = 0.

(** The handled flag gets set: it is set already, or a worker sets it during
    some sleep. *)
Definition handled_flag_set (s : State W) : Prop :=
  _bootstrap_compilation_request_handled (compiler s) = true
  \/ exists k, In Call_set_bootstrap_compilation_request_handled (calls_during k (world s)).

(** [s'] is [s] after a stretch of the poll loop: the trace grew by poll
    events, the compiler object changed by the worker calls among them and by
    nothing else, and the flags are the same. *)
Definition polled (s s' : State W) : Prop :=
  exists evs,
    trace s' = trace s ++ evs
    /\ forallb poll_event evs = true
    /\ compiler s' = fold_left apply_worker_call (worker_calls evs) (compiler s)
    /\ flags s' = flags s.

(** The world after the broker was handed [jobs], one
    [CompileBroker::compile_method] call each, in order. *)
Definition submit_jobs (jobs : list CompileJob) (w : W) : W :=
  fold_left (fun w' job => CompileBroker_compile_method job w') jobs w.

(** The state in which the poll loop starts. *)
Definition before_poll (s : State W) : State W :=
  let s1 := with_flags (set_CompileTheWorld false (flags s)) s in
  let s2 := with_compiler (set_bootstrapping true (compiler s1)) s1 in
  let s3 := if PrintBootstrap (flags s2) then emit (Tty_print "Bootstrapping JVMCI") s2 else s2 in
  submit_object_methods (Object_klass_methods (world s3)) s3.

End Runs.

(** ** Further observations *)

(** The sleeps of a trace, each with its duration and its interruptible
    argument, in order. *)
Fixpoint sleeps (tr : list Event) : list (Z * bool) :=
  match tr with
  | [] => []
  | Os_sleep ms interruptible :: rest => (ms, interruptible) :: sleeps rest
  | _ :: rest => sleeps rest
  end.

(** What a trace wrote to [tty], in order. *)
Fixpoint tty_output (tr : list Event) : list Event :=
  match tr with
  | [] => []
  | Tty_print s :: rest => Tty_print s :: tty_output rest
  | Tty_print_raw s :: rest => Tty_print_raw s :: tty_output rest
  | Tty_print_cr_bootstrap ms n :: rest => Tty_print_cr_bootstrap ms n :: tty_output rest
  | _ :: rest => tty_output rest
  end.

(** The number of [Atomic::inc]s a list of worker calls does on
    [_methods_compiled]. *)
Fixpoint methods_increments (calls : list WorkerCall) : Z :=
  match calls with
  | [] => 0
  | Call_inc_methods_compiled :: rest => 1 + methods_increments rest
  | _ :: rest => methods_increments rest
  end.

(** The number of [Atomic::inc]s a list of worker calls does on
    [_global_compilation_ticks]. *)
Fixpoint ticks_increments (calls : list WorkerCall) : Z :=
  match calls with
  | [] => 0
  | Call_inc_methods_compiled :: rest => 1 + ticks_increments rest
  | Call_inc_global_compilation_ticks :: rest => 1 + ticks_increments rest
  | _ :: rest => ticks_increments rest
  end.

(** The operations of the file that act on the VM state. *)
Inductive Operation : Type :=
| Do_initialize
| Do_bootstrap (fuel : nat)
| Do_worker_call (k : WorkerCall).

Section Sequences.

Context {W : Type} `{External W}.

(** The queue size that poll number [k] of the loop reads (counting from 0),
    when the loop starts in world [w]. *)
Definition queue_size_at (k : nat) (w : W) : Z :=
  CompileBroker_queue_size CompLevel_full_optimization (world_after (S k) w).

(** One operation; of a [bootstrap] that does not return, the state it was
    left in. *)
Definition run_operation (s : State W) (op : Operation) : State W :=
  match op with
  | Do_initialize => initialize s
  | Do_bootstrap fuel => state_of (bootstrap fuel s)
  | Do_worker_call k => with_compiler (apply_worker_call (compiler s) k) s
  end.

Definition run_operations (ops : list Operation) (s : State W) : State W :=
  fold_left run_operation ops s.

End Sequences.

(** A VM with the baseline methods of [Object_methods] that does not print. *)
Definition quiet_state : State Sim :=
  {| compiler := fresh_compiler;
     flags := sim_flags _mixed false;
     world := sim_world Object_methods false;
     trace := [] |}.

(** [quiet_state] with [CompileTheWorld] on. *)
Definition ctw_state : State Sim :=
  with_flags
    {| UseCompiler := true;
       EnableJVMCI := true;
       UseJVMCICompiler := true;
       UseJVMCINativeLibrary := false;
       PrintBootstrap := false;
       CompileTheWorld := true;
       Arguments_mode := _comp |}
    quiet_state.

(** * Properties *)

(** ** Machine arithmetic *)

Lemma wrap_int_small (x : Z) : is_int x -> wrap_int x = x.
Proof.
  unfold is_int, INT_MIN, INT_MAX, wrap_int. intros Hx.
  rewrite Z.mod_small; lia.
Qed.

Lemma wrap_int_range (x : Z) : is_int (wrap_int x).
Proof.
  unfold is_int, INT_MIN, INT_MAX, wrap_int.
  pose proof (Z.mod_pos_bound (x + 2147483648) 4294967296). lia.
Qed.

Lemma wrap_int_succ (x : Z) : is_int x -> x < INT_MAX -> wrap_int (x + 1) = x + 1.
Proof.
  unfold is_int, INT_MIN, INT_MAX. intros Hx Hlt.
  apply wrap_int_small. unfold is_int, INT_MIN, INT_MAX. lia.
Qed.

Lemma wrap_int_succ_max : wrap_int (INT_MAX + 1) = INT_MIN.
Proof. reflexivity. Qed.

(** ** The forced-compilation policy *)

Lemma oop_eqb_eq (a b : oop) : oop_eqb a b = true <-> a = b.
Proof. unfold oop_eqb. apply Z.eqb_eq. Qed.

Section Policy.

Context {W : Type} `{External W}.

Lemma exclude_loop_In (excludeModules : list oop) (module : oop) :
  exclude_loop excludeModules module = true <-> In module excludeModules.
Proof.
  induction excludeModules as [|obj rest IH]; simpl.
  - split; [discriminate | tauto].
  - destruct (oop_eqb obj module) eqn:E.
    + apply oop_eqb_eq in E. tauto.
    + rewrite IH. split; [tauto|].
      intros [Heq | Hin]; [|exact Hin].
      apply oop_eqb_eq in Heq. congruence.
Qed.

Lemma exclude_loop_ext (l1 l2 : list oop) (module : oop) :
  (forall m, In m l1 <-> In m l2) ->
  exclude_loop l1 module = exclude_loop l2 module.
Proof.
  intros Hsame.
  destruct (exclude_loop l1 module) eqn:E1, (exclude_loop l2 module) eqn:E2;
    try reflexivity.
  - apply exclude_loop_In, Hsame, exclude_loop_In in E1. congruence.
  - apply exclude_loop_In, Hsame, exclude_loop_In in E2. congruence.
Qed.

(** C2. While [_bootstrapping] is true, [force_comp_at_level_simple] returns
    false for every method, whatever the flags, the runtime bridge and the
    exclusion list are. *)
Theorem force_comp_false_while_bootstrapping
    (c : JVMCICompiler) (g : Globals) (w : W) (method : Method) :
  _bootstrapping c = true ->
  force_comp_at_level_simple c g w method = false.
Proof.
  intros Hboot. unfold force_comp_at_level_simple. now rewrite Hboot.
Qed.

(** C3. Not bootstrapping, not in native-library mode, with a runtime whose
    runtime object is not null and a non-null exclusion array:
    [force_comp_at_level_simple] returns true exactly when the module oop of
    the method's holder is an element of the array; the answer is the same
    for any array with the same elements, whatever their order or
    multiplicity. *)
Theorem force_comp_iff_module_excluded
    (c : JVMCICompiler) (g : Globals) (w : W) (method : Method)
    (runtime : JVMCIRuntime) (excludeModules : list oop) :
  _bootstrapping c = false ->
  UseJVMCINativeLibrary g = false ->
  JVMCI_java_runtime w = Some runtime ->
  is_null (probe_HotSpotJVMCIRuntime runtime w) = false ->
  excludeFromJVMCICompilation
    (HotSpotJVMCI_resolve (probe_HotSpotJVMCIRuntime runtime w) w) w
    = Some excludeModules ->
  let module := ModuleEntry_module (InstanceKlass_module (method_holder method)) in
  (force_comp_at_level_simple c g w method = true <-> In module excludeModules)
  /\ (forall other : list oop,
        (forall m, In m excludeModules <-> In m other) ->
        force_comp_at_level_simple c g w method = exclude_loop other module).
Proof.
  intros Hboot Hnative Hrt Hrecv Hlist module.
  unfold force_comp_at_level_simple.
  rewrite Hboot, Hnative, Hrt, Hrecv, Hlist. fold module.
  split.
  - apply exclude_loop_In.
  - intros other Hsame. now apply exclude_loop_ext.
Qed.

(** C4. [force_comp_at_level_simple] is a total boolean function, and it
    answers false in native-library mode, when there is no runtime, when the
    probe of the runtime object yields null, and when the exclusion array is
    null. *)
Theorem force_comp_fails_open
    (c : JVMCICompiler) (g : Globals) (w : W) (method : Method) :
  UseJVMCINativeLibrary g = true
  \/ JVMCI_java_runtime w = None
  \/ (exists runtime,
        JVMCI_java_runtime w = Some runtime
        /\ is_null (probe_HotSpotJVMCIRuntime runtime w) = true)
  \/ (exists runtime,
        JVMCI_java_runtime w = Some runtime
        /\ excludeFromJVMCICompilation
             (HotSpotJVMCI_resolve (probe_HotSpotJVMCIRuntime runtime w) w) w = None) ->
  force_comp_at_level_simple c g w method = false.
Proof.
  unfold force_comp_at_level_simple.
  intros [Hnative | [Hnone | [(rt & Hrt & Hnull) | (rt & Hrt & Hlist)]]].
  - rewrite Hnative. now destruct (_bootstrapping c).
  - rewrite Hnone. now destruct (_bootstrapping c), (UseJVMCINativeLibrary g).
  - rewrite Hrt, Hnull. now destruct (_bootstrapping c), (UseJVMCINativeLibrary g).
  - rewrite Hrt, Hlist.
    now destruct (_bootstrapping c), (UseJVMCINativeLibrary g),
      (is_null (probe_HotSpotJVMCIRuntime rt w)).
Qed.

(** C8. [compile_method] stops the VM with the should-not-reach-here error
    for all arguments and in every state; it never returns and is never left
    waiting. *)
Theorem compile_method_is_fatal
    (env target : address) (entry_bci : Z) (directive : address) (s : State W) :
  compile_method env target entry_bci directive s = Fatal ShouldNotReachHere_error s
  /\ (forall s', compile_method env target entry_bci directive s <> Returns s')
  /\ (forall s', compile_method env target entry_bci directive s <> Polling s').
Proof.
  unfold compile_method, ShouldNotReachHere. repeat split; intros; discriminate.
Qed.

End Policy.

(** ** Construction *)

Lemma registrations_when_registered (ptrs : list address) (other : address) :
  registrations ptrs {| _instance := Some other |} = [].
Proof. destruct ptrs; reflexivity. Qed.

(** C10. The constructor leaves a new object with [_bootstrapping] and
    [_bootstrap_compilation_request_handled] false and both counters 0.  At
    process start it registers the object in [_instance]; once an instance
    is registered the assertion stops every further construction, so a
    process registers at most one instance. *)
Theorem constructor_singleton :
  (forall this st,
      let obj := fst (state_of (JVMCICompiler_new this st)) in
      _bootstrapping obj = false
      /\ _bootstrap_compilation_request_handled obj = false
      /\ _methods_compiled obj = 0
      /\ _global_compilation_ticks obj = 0)
  /\ (forall this,
        JVMCICompiler_new this process_start
        = Returns (fresh_compiler, {| _instance := Some this |}))
  /\ (forall this other,
        JVMCICompiler_new this {| _instance := Some other |}
        = Fatal (assert_failed "only one instance allowed")
                (fresh_compiler, {| _instance := Some other |}))
  /\ (forall ptrs, (List.length (registrations ptrs process_start) <= 1)%nat)
  /\ (forall ptrs other, registrations ptrs {| _instance := Some other |} = []).
Proof.
  split; [|split; [|split; [|split]]].
  - intros this [[other|]]; cbn; auto.
  - reflexivity.
  - reflexivity.
  - intros [|this rest]; cbn.
    + lia.
    + rewrite registrations_when_registered. cbn. lia.
  - apply registrations_when_registered.
Qed.

(** ** Counters *)

Lemma fold_worker_calls_set_bootstrapping (calls : list WorkerCall) (b : bool)
    (c : JVMCICompiler) :
  fold_left apply_worker_call calls (set_bootstrapping b c)
  = set_bootstrapping b (fold_left apply_worker_call calls c).
Proof.
  revert c. induction calls as [|k rest IH]; intros c; simpl.
  - reflexivity.
  - rewrite <- IH. f_equal. now destruct k.
Qed.

Lemma fold_worker_calls_handled (calls : list WorkerCall) (c : JVMCICompiler) :
  _bootstrap_compilation_request_handled (fold_left apply_worker_call calls c) = true
  <-> _bootstrap_compilation_request_handled c = true
      \/ In Call_set_bootstrap_compilation_request_handled calls.
Proof.
  revert c. induction calls as [|k rest IH]; intros c; simpl.
  - tauto.
  - rewrite IH. destruct k; simpl; split; intros Hx;
      try tauto; try (destruct Hx as [Hx | [Hx | Hx]]; (discriminate || tauto)).
Qed.

Lemma fold_worker_calls_state (calls : list WorkerCall) (c : JVMCICompiler) :
  _compiler_state (fold_left apply_worker_call calls c) = _compiler_state c
  /\ _bootstrapping (fold_left apply_worker_call calls c) = _bootstrapping c.
Proof.
  revert c. induction calls as [|k rest IH]; intros c; simpl.
  - tauto.
  - destruct (IH (apply_worker_call c k)) as [-> ->]. now destruct k.
Qed.

(** ** Traces *)

Lemma submitted_app (a b : list Event) : submitted (a ++ b) = submitted a ++ submitted b.
Proof.
  induction a as [|e a IH]; simpl; [reflexivity|].
  destruct e; simpl; now rewrite IH.
Qed.

Lemma worker_calls_app (a b : list Event) :
  worker_calls (a ++ b) = worker_calls a ++ worker_calls b.
Proof.
  induction a as [|e a IH]; simpl; [reflexivity|].
  destruct e; simpl; now rewrite IH.
Qed.

Lemma finish_notifications_app (a b : list Event) :
  finish_notifications (a ++ b) = (finish_notifications a + finish_notifications b)%nat.
Proof.
  induction a as [|e a IH]; simpl; [reflexivity|].
  destruct e; simpl; now rewrite IH.
Qed.

Lemma startup_notifications_app (a b : list Event) :
  startup_notifications (a ++ b) = (startup_notifications a + startup_notifications b)%nat.
Proof.
  induction a as [|e a IH]; simpl; [reflexivity|].
  destruct e; simpl; now rewrite IH.
Qed.

Lemma worker_calls_Concurrent (calls : list WorkerCall) :
  worker_calls (map Concurrent calls) = calls.
Proof. induction calls; simpl; congruence. Qed.

Lemma poll_events_Concurrent (calls : list WorkerCall) :
  forallb poll_event (map Concurrent calls) = true.
Proof. induction calls; simpl; auto. Qed.

Lemma poll_events_submitted (evs : list Event) :
  forallb poll_event evs = true -> submitted evs = [].
Proof.
  induction evs as [|e evs IH]; simpl; [reflexivity|].
  intros Hall. apply andb_prop in Hall as [He Hall].
  destruct e; simpl in *; try discriminate; auto.
Qed.

Lemma poll_events_finish (evs : list Event) :
  forallb poll_event evs = true -> finish_notifications evs = O.
Proof.
  induction evs as [|e evs IH]; simpl; [reflexivity|].
  intros Hall. apply andb_prop in Hall as [He Hall].
  destruct e; simpl in *; try discriminate; auto.
Qed.

Lemma submitted_jobs (jobs : list CompileJob) :
  submitted (map Broker_compile_method jobs) = jobs.
Proof. induction jobs; simpl; congruence. Qed.

Lemma worker_calls_jobs (jobs : list CompileJob) :
  worker_calls (map Broker_compile_method jobs) = [].
Proof. induction jobs; simpl; congruence. Qed.

Lemma finish_notifications_jobs (jobs : list CompileJob) :
  finish_notifications (map Broker_compile_method jobs) = O.
Proof. induction jobs; simpl; congruence. Qed.

(** ** The poll loop *)

Section Bootstrap.

Context {W : Type} `{External W}.

Lemma polled_refl (s : State W) : polled s s.
Proof. exists []. now rewrite app_nil_r. Qed.

Lemma polled_trans (s1 s2 s3 : State W) : polled s1 s2 -> polled s2 s3 -> polled s1 s3.
Proof.
  intros (e1 & Ht1 & Hp1 & Hc1 & Hf1) (e2 & Ht2 & Hp2 & Hc2 & Hf2).
  exists (e1 ++ e2). repeat split.
  - now rewrite Ht2, Ht1, app_assoc.
  - rewrite forallb_app, Hp1, Hp2. reflexivity.
  - now rewrite worker_calls_app, fold_left_app, <- Hc1.
  - congruence.
Qed.

Lemma sleep_spec (ms : Z) (b : bool) (s : State W) :
  world (sleep ms b s) = fst (os_sleep ms b (world s))
  /\ compiler (sleep ms b s)
     = fold_left apply_worker_call (snd (os_sleep ms b (world s))) (compiler s)
  /\ flags (sleep ms b s) = flags s
  /\ trace (sleep ms b s)
     = trace s ++ Os_sleep ms b :: map Concurrent (snd (os_sleep ms b (world s))).
Proof. unfold sleep. destruct (os_sleep ms b (world s)); simpl. auto. Qed.

Lemma sleep_polled (ms : Z) (b : bool) (s : State W) : polled s (sleep ms b s).
Proof.
  destruct (sleep_spec ms b s) as (_ & Hc & Hf & Ht).
  exists (Os_sleep ms b :: map Concurrent (snd (os_sleep ms b (world s)))).
  repeat split; auto.
  - simpl. apply poll_events_Concurrent.
  - simpl. now rewrite worker_calls_Concurrent.
Qed.

Lemma print_dots_spec (n : nat) (z : Z) (s : State W) :
  let s' := snd (print_dots n z s) in
  world s' = world s /\ compiler s' = compiler s /\ polled s s'.
Proof.
  revert z s. induction n as [|n IH]; intros z s; simpl.
  - repeat split; auto using polled_refl.
  - destruct (z <? Z.quot (_methods_compiled (compiler s)) 100).
    + destruct (IH (z + 1) (emit (Tty_print_raw ".") s)) as (Hw & Hc & Hp).
      repeat split; auto.
      eapply polled_trans; [|exact Hp].
      exists [Tty_print_raw "."]. repeat split.
    + repeat split; auto using polled_refl.
Qed.

(** [print_progress] runs the dots loop to its end: afterwards the loop
    condition is false. *)
Lemma print_progress_done (z : Z) (s : State W) :
  let '(z', s') := print_progress z s in
  (z' <? Z.quot (_methods_compiled (compiler s')) 100) = false.
Proof.
  unfold print_progress.
  remember (Z.to_nat (Z.quot (_methods_compiled (compiler s)) 100 - z)) as n eqn:Hn.
  assert (Hle : Z.quot (_methods_compiled (compiler s)) 100 - z <= Z.of_nat n) by lia.
  clear Hn. revert z s Hle. induction n as [|n IH]; intros z s Hle; simpl.
  - apply Z.ltb_ge. lia.
  - destruct (z <? Z.quot (_methods_compiled (compiler s)) 100) eqn:E.
    + apply IH. simpl. lia.
    + exact E.
Qed.

Lemma progress_spec (z : Z) (s : State W) :
  let s' := snd (if PrintBootstrap (flags s) then print_progress z s else (z, s)) in
  world s' = world s /\ compiler s' = compiler s /\ polled s s'.
Proof.
  destruct (PrintBootstrap (flags s)); simpl.
  - apply print_dots_spec.
  - auto using polled_refl.
Qed.

Lemma poll_polled (fuel : nat) (first_round : bool) (z : Z) (s : State W) :
  polled s (state_of (poll fuel first_round z s)).
Proof.
  revert first_round z s. induction fuel as [|fuel IH]; intros fr z s; simpl.
  - apply polled_refl.
  - set (s1 := sleep 100 true s).
    assert (H1 : polled s s1) by apply sleep_polled.
    destruct (negb (_bootstrap_compilation_request_handled (compiler s1)) && fr
              && (CompileBroker_queue_size CompLevel_full_optimization (world s1) =? 0)).
    + eapply polled_trans; [exact H1 | apply IH].
    + pose proof (progress_spec z s1) as (_ & _ & H2).
      destruct (if PrintBootstrap (flags s1) then print_progress z s1 else (z, s1))
        as [z' s2]; simpl in H2.
      destruct (negb (CompileBroker_queue_size CompLevel_full_optimization (world s1) =? 0)).
      * eapply polled_trans; [exact H1 |]. eapply polled_trans; [exact H2 | apply IH].
      * simpl. eapply polled_trans; eauto.
Qed.

(** The loop is left only by [qsize == 0], and never by an error. *)
Lemma poll_outcome (fuel : nat) (first_round : bool) (z : Z) (s : State W) :
  match poll fuel first_round z s with
  | Returns s' => CompileBroker_queue_size CompLevel_full_optimization (world s') = 0
  | Fatal _ _ => False
  | Polling _ => True
  end.
Proof.
  revert first_round z s. induction fuel as [|fuel IH]; intros fr z s; simpl.
  - exact I.
  - set (s1 := sleep 100 true s).
    destruct (negb (_bootstrap_compilation_request_handled (compiler s1)) && fr
              && (CompileBroker_queue_size CompLevel_full_optimization (world s1) =? 0)).
    + apply IH.
    + pose proof (progress_spec z s1) as (Hw & _ & _).
      destruct (if PrintBootstrap (flags s1) then print_progress z s1 else (z, s1))
        as [z' s2]; simpl in Hw.
      destruct (CompileBroker_queue_size CompLevel_full_optimization (world s1) =? 0) eqn:E;
        simpl.
      * rewrite Hw. now apply Z.eqb_eq.
      * apply IH.
Qed.

(** The world at the end of a stretch of the loop is the world after as many
    sleeps as the stretch has made; nothing else moves it. *)
Lemma poll_world (fuel : nat) (first_round : bool) (z : Z) (s : State W) :
  exists n,
    (n <= fuel)%nat
    /\ (finished (poll fuel first_round z s) = false -> n = fuel)
    /\ world (state_of (poll fuel first_round z s)) = world_after n (world s).
Proof.
  revert first_round z s. induction fuel as [|fuel IH]; intros fr z s.
  - exists O. simpl. auto.
  - cbn [poll]. set (s1 := sleep 100 true s).
    destruct (sleep_spec 100 true s) as (Hw & _). fold s1 in Hw.
    destruct (negb (_bootstrap_compilation_request_handled (compiler s1)) && fr
              && (CompileBroker_queue_size CompLevel_full_optimization (world s1) =? 0)).
    + destruct (IH fr z s1) as (n & Hle & Hnot & Hworld).
      exists (S n). cbn [world_after]. rewrite <- Hw.
      repeat split; auto; lia.
    + pose proof (progress_spec z s1) as (Hw2 & _ & _).
      destruct (if PrintBootstrap (flags s1) then print_progress z s1 else (z, s1))
        as [z' s2]; simpl in Hw2.
      destruct (negb (CompileBroker_queue_size CompLevel_full_optimization (world s1) =? 0)).
      * destruct (IH false z' s2) as (n & Hle & Hnot & Hworld).
        exists (S n). cbn [world_after]. rewrite <- Hw, <- Hw2.
        repeat split; auto; lia.
      * exists 1%nat. cbn [world_after state_of finished]. rewrite <- Hw.
        repeat split; auto; try lia; discriminate.
Qed.

End Bootstrap.

(** ** bootstrap *)

Section BootstrapProperties.

Context {W : Type} `{External W}.

Lemma submit_object_methods_spec (objectMethods : list Method) (s : State W) :
  let s' := submit_object_methods objectMethods s in
  trace s' = trace s
             ++ map Broker_compile_method
                  (map bootstrap_job (filter is_baseline objectMethods))
  /\ compiler s' = compiler s
  /\ flags s' = flags s.
Proof.
  revert s. induction objectMethods as [|mh rest IH]; intros s; simpl.
  - now rewrite app_nil_r.
  - destruct (is_baseline mh); simpl.
    + destruct (IH (call (Broker_compile_method (bootstrap_job mh))
                         (CompileBroker_compile_method (bootstrap_job mh) (world s)) s))
        as (Ht & Hc & Hf).
      rewrite Ht, Hc, Hf. simpl. now rewrite <- app_assoc.
    + apply IH.
Qed.

(** Every baseline method is handed to the broker, in array order, and the
    broker's answer is the world the next iteration runs in. *)
Lemma submit_object_methods_world (objectMethods : list Method) (s : State W) :
  world (submit_object_methods objectMethods s)
  = submit_jobs (map bootstrap_job (filter is_baseline objectMethods)) (world s).
Proof.
  revert s. induction objectMethods as [|mh rest IH]; intros s; simpl.
  - reflexivity.
  - destruct (is_baseline mh); simpl; now rewrite IH.
Qed.

(** With no baseline method the submission loop does nothing at all. *)
Lemma submit_nothing (objectMethods : list Method) (s : State W) :
  filter is_baseline objectMethods = [] ->
  submit_object_methods objectMethods s = s.
Proof.
  revert s. induction objectMethods as [|mh rest IH]; intros s; simpl.
  - reflexivity.
  - destruct (is_baseline mh); [discriminate | apply IH].
Qed.

Lemma is_baseline_iff (mh : Method) :
  is_baseline mh = true
  <-> is_native mh = false /\ is_static mh = false /\ is_initializer mh = false.
Proof.
  unfold is_baseline.
  destruct (is_native mh), (is_static mh), (is_initializer mh); simpl;
    split; try tauto; try discriminate; intros (? & ? & ?); discriminate.
Qed.

Lemma bootstrap_unfold (fuel : nat) (s : State W) :
  Arguments_mode (flags s) <> _int ->
  bootstrap fuel s
  = match poll fuel true 0 (before_poll s) with
    | Returns s5 =>
        bootstrap_finish (os_javaTimeMillis (world s)) (CompileTheWorld (flags s)) s5
    | other => other
    end.
Proof.
  intros Hmode. unfold bootstrap, before_poll.
  destruct (Arguments_mode (flags s)); simpl; try congruence;
    destruct (PrintBootstrap (flags s)); reflexivity.
Qed.

Lemma before_poll_spec (s : State W) :
  let baseline := filter is_baseline (Object_klass_methods (world s)) in
  submitted (trace (before_poll s)) = submitted (trace s) ++ map bootstrap_job baseline
  /\ worker_calls (trace (before_poll s)) = worker_calls (trace s)
  /\ finish_notifications (trace (before_poll s)) = finish_notifications (trace s)
  /\ compiler (before_poll s) = set_bootstrapping true (compiler s).
Proof.
  unfold before_poll. simpl.
  match goal with
  | |- context [submit_object_methods ?ms ?st] =>
      destruct (submit_object_methods_spec ms st) as (Ht & Hc & Hf)
  end.
  rewrite Ht, Hc.
  rewrite submitted_app, worker_calls_app, finish_notifications_app.
  rewrite submitted_jobs, worker_calls_jobs, finish_notifications_jobs.
  destruct (PrintBootstrap (flags s)); simpl;
    rewrite ?submitted_app, ?worker_calls_app, ?finish_notifications_app; simpl;
    rewrite ?app_nil_r, ?Nat.add_0_r; auto.
Qed.

Lemma before_poll_world (s : State W) :
  world (before_poll s)
  = submit_jobs
      (map bootstrap_job (filter is_baseline (Object_klass_methods (world s))))
      (world s).
Proof.
  unfold before_poll. rewrite submit_object_methods_world. simpl.
  now destruct (PrintBootstrap (flags s)).
Qed.

Lemma before_poll_idle (s : State W) :
  filter is_baseline (Object_klass_methods (world s)) = [] ->
  world (before_poll s) = world s
  /\ _bootstrap_compilation_request_handled (compiler (before_poll s))
     = _bootstrap_compilation_request_handled (compiler s).
Proof.
  intros Hnone. unfold before_poll.
  simpl. destruct (PrintBootstrap (flags s)); simpl;
    rewrite (submit_nothing _ _ Hnone); simpl; auto.
Qed.

(** What [bootstrap_finish] does, by whether there is a runtime. *)
Lemma bootstrap_finish_spec (start : Z) (ctw : bool) (s : State W) :
  exists s2 : State W,
    world s2 = world s
    /\ compiler s2 = set_bootstrapping false (compiler s)
    /\ submitted (trace s2) = submitted (trace s)
    /\ worker_calls (trace s2) = worker_calls (trace s)
    /\ finish_notifications (trace s2) = finish_notifications (trace s)
    /\ match JVMCI_java_runtime (world s2) with
       | None => bootstrap_finish start ctw s = Fatal SIGSEGV s2
       | Some runtime =>
           bootstrap_finish start ctw s
           = Returns
               (with_flags (set_CompileTheWorld ctw (flags s2))
                  (call (Runtime_bootstrap_finished runtime)
                        (JVMCIRuntime_bootstrap_finished runtime (compiler s2) (world s2))
                        s2))
       end.
Proof.
  unfold bootstrap_finish.
  set (s1 := if PrintBootstrap (flags s) then _ else s).
  assert (H1 : world s1 = world s /\ compiler s1 = compiler s
               /\ submitted (trace s1) = submitted (trace s)
               /\ worker_calls (trace s1) = worker_calls (trace s)
               /\ finish_notifications (trace s1) = finish_notifications (trace s)).
  { subst s1. destruct (PrintBootstrap (flags s)); simpl;
      rewrite ?submitted_app, ?worker_calls_app, ?finish_notifications_app; simpl;
      rewrite ?app_nil_r, ?Nat.add_0_r; auto. }
  destruct H1 as (Hw & Hc & Hs & Hk & Hn).
  exists (with_compiler (set_bootstrapping false (compiler s1)) s1).
  simpl. rewrite Hc. repeat split; auto.
  destruct (JVMCI_java_runtime (world s1)); reflexivity.
Qed.

End BootstrapProperties.

(** ** Termination of the poll loop on an empty queue *)

Section EmptyQueue.

Context {W : Type} `{External W}.

Lemma queue_stays_empty_after_sleep (s : State W) :
  queue_stays_empty (world s) ->
  CompileBroker_queue_size CompLevel_full_optimization (world (sleep 100 true s)) = 0
  /\ queue_stays_empty (world (sleep 100 true s)).
Proof.
  intros Hq. destruct (sleep_spec 100 true s) as (Hw & _). rewrite Hw. split.
  - exact (Hq O).
  - intros k. exact (Hq (S k)).
Qed.

Lemma handled_after_sleep (s : State W) :
  _bootstrap_compilation_request_handled (compiler (sleep 100 true s)) = true
  <-> _bootstrap_compilation_request_handled (compiler s) = true
      \/ In Call_set_bootstrap_compilation_request_handled (calls_during O (world s)).
Proof.
  destruct (sleep_spec 100 true s) as (_ & Hc & _). rewrite Hc.
  apply fold_worker_calls_handled.
Qed.

Lemma calls_during_after_sleep (k : nat) (s : State W) :
  calls_during k (world (sleep 100 true s)) = calls_during (S k) (world s).
Proof.
  destruct (sleep_spec 100 true s) as (Hw & _). unfold calls_during. now rewrite Hw.
Qed.

(** Once the flag is set, at entry or during sleep [k], the loop is over
    after at most [k + 1] sleeps. *)
Lemma poll_returns_once_handled (k : nat) (first_round : bool) (z : Z) (s : State W) :
  queue_stays_empty (world s) ->
  _bootstrap_compilation_request_handled (compiler s) = true
  \/ In Call_set_bootstrap_compilation_request_handled (calls_during k (world s)) ->
  exists s', poll (S k) first_round z s = Returns s'.
Proof.
  revert first_round z s. induction k as [|k IH]; intros fr z s Hq Hset.
  - simpl. destruct (queue_stays_empty_after_sleep s Hq) as (Hq0 & _).
    apply handled_after_sleep in Hset. rewrite Hset, Hq0. simpl.
    destruct (if PrintBootstrap _ then _ else _) as [z' s2]. eauto.
  - cbn [poll].
    destruct (queue_stays_empty_after_sleep s Hq) as (Hq0 & Hq1).
    rewrite Hq0.
    destruct (_bootstrap_compilation_request_handled (compiler (sleep 100 true s))) eqn:Hh;
      [| destruct fr ]; simpl.
    + destruct (if PrintBootstrap _ then _ else _) as [z' s2]. eauto.
    + apply IH; [exact Hq1 |].
      destruct Hset as [Hset | Hset].
      * assert (Hc : _bootstrap_compilation_request_handled
                       (compiler (sleep 100 true s)) = true)
          by (apply handled_after_sleep; auto).
        congruence.
      * right. now rewrite calls_during_after_sleep.
    + destruct (if PrintBootstrap _ then _ else _) as [z' s2]. eauto.
Qed.

(** While the flag is not set the first round never ends. *)
Lemma poll_ends_only_if_handled (fuel : nat) (z : Z) (s : State W) :
  queue_stays_empty (world s) ->
  finished (poll fuel true z s) = true ->
  handled_flag_set s.
Proof.
  revert z s. induction fuel as [|fuel IH]; intros z s Hq Hfin.
  - discriminate.
  - cbn [poll] in Hfin.
    destruct (queue_stays_empty_after_sleep s Hq) as (Hq0 & Hq1).
    rewrite Hq0 in Hfin.
    destruct (_bootstrap_compilation_request_handled (compiler (sleep 100 true s))) eqn:Hh.
    + apply handled_after_sleep in Hh. destruct Hh as [Hh | Hh].
      * now left.
      * right. now exists O.
    + simpl in Hfin. destruct (IH z _ Hq1 Hfin) as [Hset | [k Hset]].
      * congruence.
      * right. exists (S k). now rewrite <- calls_during_after_sleep.
Qed.

Lemma bootstrap_finish_finished (start : Z) (ctw : bool) (s : State W) :
  finished (bootstrap_finish start ctw s) = true.
Proof.
  destruct (bootstrap_finish_spec start ctw s) as (s2 & _ & _ & _ & _ & _ & Hout).
  destruct (JVMCI_java_runtime (world s2)); now rewrite Hout.
Qed.

(** Outside of [-Xint], [bootstrap] ends exactly when its poll loop does. *)
Lemma bootstrap_finished_poll (fuel : nat) (s : State W) :
  Arguments_mode (flags s) <> _int ->
  finished (bootstrap fuel s) = finished (poll fuel true 0 (before_poll s)).
Proof.
  intros Hmode. rewrite (bootstrap_unfold fuel s Hmode).
  pose proof (poll_outcome fuel true 0 (before_poll s)) as Hout.
  destruct (poll fuel true 0 (before_poll s)); simpl; try reflexivity.
  apply bootstrap_finish_finished.
Qed.

Lemma handled_flag_set_before_poll (s : State W) :
  filter is_baseline (Object_klass_methods (world s)) = [] ->
  handled_flag_set (before_poll s) <-> handled_flag_set s.
Proof.
  intros Hnone. destruct (before_poll_idle s Hnone) as (Hw & Hh).
  unfold handled_flag_set. now rewrite Hw, Hh.
Qed.

Lemma idle_bootstrap_terminates_iff (s : State W) :
  Arguments_mode (flags s) <> _int ->
  filter is_baseline (Object_klass_methods (world s)) = [] ->
  queue_stays_empty (world s) ->
  bootstrap_terminates s <-> handled_flag_set s.
Proof.
  intros Hmode Hnone Hq.
  assert (Hq' : queue_stays_empty (world (before_poll s)))
    by (destruct (before_poll_idle s Hnone) as (-> & _); exact Hq).
  rewrite <- (handled_flag_set_before_poll s Hnone).
  unfold bootstrap_terminates. split.
  - intros (fuel & Hfin). rewrite (bootstrap_finished_poll fuel s Hmode) in Hfin.
    eapply poll_ends_only_if_handled; eauto.
  - intros Hset.
    assert (Hk : exists k,
               _bootstrap_compilation_request_handled (compiler (before_poll s)) = true
               \/ In Call_set_bootstrap_compilation_request_handled
                     (calls_during k (world (before_poll s)))).
    { destruct Hset as [Hset | (k & Hset)]; [exists O | exists k]; auto. }
    destruct Hk as (k & Hk).
    destruct (poll_returns_once_handled k true 0 _ Hq' Hk) as (s' & Hret).
    exists (S k). rewrite (bootstrap_finished_poll _ s Hmode), Hret. reflexivity.
Qed.

(** C1 (as amended). With no baseline method to submit and a queue that every
    poll finds empty, [bootstrap] outside of [-Xint] mode terminates if and
    only if the bootstrap-request-handled flag gets set (it is set at entry,
    or a worker sets it during one of the sleeps).  When the flag is never
    set, every amount of fuel leaves [bootstrap] inside the poll loop. *)
Theorem bootstrap_idle_terminates_iff_handled (s : State W) :
  Arguments_mode (flags s) <> _int ->
  filter is_baseline (Object_klass_methods (world s)) = [] ->
  queue_stays_empty (world s) ->
  (bootstrap_terminates s <-> handled_flag_set s)
  /\ (~ handled_flag_set s ->
      forall fuel, exists s', bootstrap fuel s = Polling s').
Proof.
  intros Hmode Hnone Hq.
  pose proof (idle_bootstrap_terminates_iff s Hmode Hnone Hq) as Hiff.
  split; [exact Hiff |].
  intros Hnever fuel.
  destruct (bootstrap fuel s) as [s' | e s' | s'] eqn:Hrun.
  - exfalso. apply Hnever, Hiff. exists fuel. now rewrite Hrun.
  - exfalso. apply Hnever, Hiff. exists fuel. now rewrite Hrun.
  - now exists s'.
Qed.

End EmptyQueue.

(** ** What bootstrap submits and how it ends *)

Section BootstrapResults.

Context {W : Type} `{External W}.

(** The observations of the trace and the compiler object at the end of a
    run of [bootstrap], whichever way the run ends. *)
Lemma bootstrap_observations (fuel : nat) (s : State W) :
  Arguments_mode (flags s) <> _int ->
  let s' := state_of (bootstrap fuel s) in
  exists (calls : list WorkerCall) (b : bool),
    submitted (trace s')
    = submitted (trace s)
      ++ map bootstrap_job (filter is_baseline (Object_klass_methods (world s)))
    /\ worker_calls (trace s') = worker_calls (trace s) ++ calls
    /\ compiler s' = set_bootstrapping b (fold_left apply_worker_call calls (compiler s)).
Proof.
  intros Hmode. cbv zeta. rewrite (bootstrap_unfold fuel s Hmode).
  destruct (before_poll_spec s) as (Hs0 & Hk0 & _ & Hc0).
  destruct (poll_polled fuel true 0 (before_poll s)) as (evs & Ht & Hp & Hc & _).
  assert (Hobs :
    submitted (trace (state_of (poll fuel true 0 (before_poll s))))
    = submitted (trace s)
      ++ map bootstrap_job (filter is_baseline (Object_klass_methods (world s)))
    /\ worker_calls (trace (state_of (poll fuel true 0 (before_poll s))))
       = worker_calls (trace s) ++ worker_calls evs
    /\ compiler (state_of (poll fuel true 0 (before_poll s)))
       = set_bootstrapping true
           (fold_left apply_worker_call (worker_calls evs) (compiler s))).
  { rewrite Ht, Hc, submitted_app, worker_calls_app, Hs0, Hk0, Hc0.
    rewrite (poll_events_submitted evs Hp), app_nil_r.
    now rewrite fold_worker_calls_set_bootstrapping. }
  destruct Hobs as (Hs & Hk & Hcomp).
  destruct (poll fuel true 0 (before_poll s)) as [s5 | e s5 | s5]; simpl in *.
  - destruct (bootstrap_finish_spec (os_javaTimeMillis (world s))
                (CompileTheWorld (flags s)) s5)
      as (s2 & _ & Hc2 & Hs2 & Hk2 & _ & Hout).
    exists (worker_calls evs), false.
    destruct (JVMCI_java_runtime (world s2)); rewrite Hout; simpl;
      rewrite ?submitted_app, ?worker_calls_app; simpl; rewrite ?app_nil_r;
      rewrite Hs2, Hk2, Hc2, Hs, Hk, Hcomp; now destruct (fold_left _ _ _).
  - exists (worker_calls evs), true. auto.
  - exists (worker_calls evs), true. auto.
Qed.

(** The world of a run of [bootstrap]: the world it was started in, handed
    the jobs, slept on [n] times and, when the run returns, notified. *)
Lemma bootstrap_world (fuel : nat) (s : State W) :
  Arguments_mode (flags s) <> _int ->
  exists n,
    (n <= fuel)%nat
    /\ (finished (bootstrap fuel s) = false -> n = fuel)
    /\ let w := world_after n
                  (submit_jobs
                     (map bootstrap_job
                        (filter is_baseline (Object_klass_methods (world s))))
                     (world s)) in
       match bootstrap fuel s with
       | Returns s' =>
           exists runtime,
             JVMCI_java_runtime w = Some runtime
             /\ world s' = JVMCIRuntime_bootstrap_finished runtime (compiler s') w
       | Fatal _ s' => world s' = w
       | Polling s' => world s' = w
       end.
Proof.
  intros Hmode.
  rewrite (bootstrap_finished_poll fuel s Hmode), (bootstrap_unfold fuel s Hmode).
  destruct (poll_world fuel true 0 (before_poll s)) as (n & Hle & Hnot & Hw).
  rewrite before_poll_world in Hw.
  pose proof (poll_outcome fuel true 0 (before_poll s)) as Hout.
  exists n. split; [exact Hle | split; [exact Hnot |]]. cbv zeta.
  destruct (poll fuel true 0 (before_poll s)) as [s5 | e s5 | s5]; simpl in *;
    try contradiction; try exact Hw.
  destruct (bootstrap_finish_spec (os_javaTimeMillis (world s))
              (CompileTheWorld (flags s)) s5)
    as (s2 & Hw2 & _ & _ & _ & _ & Hfin).
  rewrite <- Hw, <- Hw2.
  destruct (JVMCI_java_runtime (world s2)) as [runtime|] eqn:Hrt; rewrite Hfin.
  - exists runtime. split; reflexivity.
  - reflexivity.
Qed.

(** C6. Outside of [-Xint] mode, and however the run goes on afterwards, the
    jobs [bootstrap] hands to the compile broker are one job for each method
    of [Object] that is not native, not static and not an initializer, in
    array order, and nothing else: these are the [compile_method] calls of
    the trace, and the world in which the poll loop starts is the world at
    entry after the broker has taken these jobs, one call each.  The world
    at the end of the run is that world after the sleeps of the loop and,
    when [bootstrap] returns, the notification.  Each job asks for the
    highest tier, gives [Reason_Bootstrap] and carries a positive hot
    count. *)
Theorem bootstrap_submits_baseline (fuel : nat) (s : State W) :
  Arguments_mode (flags s) <> _int ->
  let objectMethods := Object_klass_methods (world s) in
  let jobs := map bootstrap_job (filter is_baseline objectMethods) in
  submitted (trace (state_of (bootstrap fuel s))) = submitted (trace s) ++ jobs
  /\ world (before_poll s) = submit_jobs jobs (world s)
  /\ (exists n,
        (n <= fuel)%nat
        /\ (finished (bootstrap fuel s) = false -> n = fuel)
        /\ let w := world_after n (submit_jobs jobs (world s)) in
           match bootstrap fuel s with
           | Returns s' =>
               exists runtime,
                 JVMCI_java_runtime w = Some runtime
                 /\ world s' = JVMCIRuntime_bootstrap_finished runtime (compiler s') w
           | Fatal _ s' => world s' = w
           | Polling s' => world s' = w
           end)
  /\ (forall mh,
        In (bootstrap_job mh) jobs
        <-> In mh objectMethods
            /\ is_native mh = false /\ is_static mh = false
            /\ is_initializer mh = false)
  /\ (forall job,
        In job jobs ->
        job_comp_level job = CompLevel_full_optimization
        /\ (forall l, CompLevel_rank l <= CompLevel_rank (job_comp_level job))
        /\ job_reason job = Reason_Bootstrap
        /\ 0 < job_hot_count job
        /\ job_osr_bci job = InvocationEntryBci
        /\ job_hot_method job = job_method job).
Proof.
  intros Hmode objectMethods jobs.
  destruct (bootstrap_observations fuel s Hmode) as (calls & b & Hs & _).
  split; [exact Hs |].
  split; [apply before_poll_world |].
  split; [exact (bootstrap_world fuel s Hmode) | split].
  - intros mh. unfold jobs. rewrite in_map_iff. split.
    + intros (mh' & Heq & Hin).
      assert (mh' = mh) by (apply (f_equal job_method) in Heq; exact Heq).
      subst mh'. apply filter_In in Hin as (Hin & Hb).
      apply is_baseline_iff in Hb. tauto.
    + intros (Hin & Hb). exists mh. split; [reflexivity |].
      apply filter_In. split; [exact Hin | now apply is_baseline_iff].
  - intros job Hin. unfold jobs in Hin. apply in_map_iff in Hin as (mh & <- & _).
    simpl. repeat split; try lia. intros l. destruct l; simpl; lia.
Qed.

(** C7. Outside of [-Xint] mode, a run of [bootstrap] that ends has left the
    poll loop on an empty queue and has then reached a state [s2] in which
    [_bootstrapping] is false and no finish notification of this run has
    been sent.  With a runtime present, [bootstrap] returns the result of
    the notification made in [s2]: the notification is the last event, it is
    made on the compiler object of [s2], whose [_bootstrapping] it finds
    false, the compiler object is still that of [s2] on return, and the
    world, with the pending exception of a failed notification, is as the
    notification left it.  Without a runtime the call on the null pointer
    stops the VM in [s2]. *)
Theorem bootstrap_clears_flag_before_notifying (fuel : nat) (s : State W) :
  Arguments_mode (flags s) <> _int ->
  finished (bootstrap fuel s) = true ->
  exists s2 : State W,
    CompileBroker_queue_size CompLevel_full_optimization (world s2) = 0
    /\ _bootstrapping (compiler s2) = false
    /\ finish_notifications (trace s2) = finish_notifications (trace s)
    /\ match JVMCI_java_runtime (world s2) with
       | None => bootstrap fuel s = Fatal SIGSEGV s2
       | Some runtime =>
           exists s3 : State W,
             bootstrap fuel s = Returns s3
             /\ trace s3 = trace s2 ++ [Runtime_bootstrap_finished runtime]
             /\ compiler s3 = compiler s2
             /\ world s3
                = JVMCIRuntime_bootstrap_finished runtime (compiler s2) (world s2)
             /\ (HAS_PENDING_EXCEPTION
                   (JVMCIRuntime_bootstrap_finished runtime (compiler s2) (world s2))
                 = true ->
                 HAS_PENDING_EXCEPTION (world s3) = true
                 /\ _bootstrapping (compiler s3) = false)
       end.
Proof.
  intros Hmode Hfin.
  rewrite (bootstrap_finished_poll fuel s Hmode) in Hfin.
  rewrite (bootstrap_unfold fuel s Hmode).
  destruct (before_poll_spec s) as (_ & _ & Hn0 & _).
  pose proof (poll_outcome fuel true 0 (before_poll s)) as Hq.
  destruct (poll_polled fuel true 0 (before_poll s)) as (evs & Ht & Hp & _).
  destruct (poll fuel true 0 (before_poll s)) as [s5 | e s5 | s5];
    simpl in *; try discriminate; try contradiction.
  destruct (bootstrap_finish_spec (os_javaTimeMillis (world s))
              (CompileTheWorld (flags s)) s5)
    as (s2 & Hw2 & Hc2 & _ & _ & Hn2 & Hout).
  exists s2. repeat split.
  - now rewrite Hw2.
  - now rewrite Hc2.
  - rewrite Hn2, Ht, finish_notifications_app, (poll_events_finish evs Hp), Hn0. lia.
  - destruct (JVMCI_java_runtime (world s2)) as [runtime|]; [| exact Hout].
    eexists. split; [exact Hout |]. simpl. repeat split; auto.
    now rewrite Hc2.
Qed.

End BootstrapResults.

(** ** initialize *)

Section Lifecycle.

Context {W : Type} `{External W}.

Lemma initialize_noop (s : State W) :
  UseCompiler (flags s) = false
  \/ EnableJVMCI (flags s) = false
  \/ UseJVMCICompiler (flags s) = false
  \/ _compiler_state (compiler s) = initialized ->
  initialize s = s.
Proof.
  unfold initialize, should_perform_init.
  intros [Hd | [Hd | [Hd | Hd]]]; rewrite Hd;
    destruct (UseCompiler (flags s)), (EnableJVMCI (flags s)),
      (UseJVMCICompiler (flags s)); try reflexivity;
    destruct (_compiler_state (compiler s)); try reflexivity; discriminate.
Qed.

Lemma initialize_first (s : State W) :
  jvmci_enabled (flags s) = true ->
  _compiler_state (compiler s) = uninitialized ->
  initialize s
  = {| compiler := set_state initialized (compiler s);
       flags := flags s;
       world := CompilationPolicy_completed_vm_startup (world s);
       trace := trace s ++ [Policy_completed_vm_startup] |}.
Proof.
  unfold jvmci_enabled, initialize, should_perform_init. intros Hen Hst.
  apply andb_prop in Hen as [Hen H3]. apply andb_prop in Hen as [H1 H2].
  now rewrite H1, H2, H3, Hst.
Qed.

Lemma initialize_cases (s : State W) :
  (jvmci_enabled (flags s) && should_perform_init (compiler s) = true
   /\ jvmci_enabled (flags s) = true
   /\ _compiler_state (compiler s) = uninitialized)
  \/ (jvmci_enabled (flags s) && should_perform_init (compiler s) = false
      /\ initialize s = s).
Proof.
  unfold jvmci_enabled, should_perform_init.
  destruct (UseCompiler (flags s)) eqn:H1;
    [destruct (EnableJVMCI (flags s)) eqn:H2;
      [destruct (UseJVMCICompiler (flags s)) eqn:H3;
        [destruct (_compiler_state (compiler s)) eqn:H4|]|]|];
    simpl; auto; right; (split; [reflexivity | apply initialize_noop; auto]).
Qed.




(** ** Counters *)

Lemma initialize_counters (s : State W) :
  _methods_compiled (compiler (initialize s)) = _methods_compiled (compiler s)
  /\ _global_compilation_ticks (compiler (initialize s))
     = _global_compilation_ticks (compiler s).
Proof.
  destruct (initialize_cases s) as [(_ & Hen & Hst) | (_ & Hfix)].
  - rewrite (initialize_first s Hen Hst). simpl. auto.
  - rewrite Hfix. auto.
Qed.

Lemma bootstrap_counters (fuel : nat) (s : State W) :
  exists calls : list WorkerCall,
    worker_calls (trace (state_of (bootstrap fuel s))) = worker_calls (trace s) ++ calls
    /\ _methods_compiled (compiler (state_of (bootstrap fuel s)))
       = _methods_compiled (fold_left apply_worker_call calls (compiler s))
    /\ _global_compilation_ticks (compiler (state_of (bootstrap fuel s)))
       = _global_compilation_ticks (fold_left apply_worker_call calls (compiler s)).
Proof.
  destruct (Mode_eqb (Arguments_mode (flags s)) _int) eqn:Hm.
  - exists []. unfold bootstrap. rewrite Hm. simpl. now rewrite app_nil_r.
  - assert (Hmode : Arguments_mode (flags s) <> _int)
      by (intros Heq; rewrite Heq in Hm; discriminate).
    destruct (bootstrap_observations fuel s Hmode) as (calls & b & _ & Hk & Hc).
    exists calls. rewrite Hc. simpl. auto.
Qed.

(** C9 (as amended). [inc_methods_compiled] adds one to both counters and
    [inc_global_compilation_ticks] adds one to the ticks only, leaving
    [_methods_compiled] and every other field as they were; the counters are
    [int]s and the addition wraps, so the step is exactly one for a counter
    below [INT_MAX] and leads from [INT_MAX] to [INT_MIN].  Nothing else
    changes a counter: [initialize] leaves both alone, and over a run of
    [bootstrap] they change by the workers' calls of the two functions
    only. *)
Theorem counters_increment_wrapping :
  (forall c,
      _methods_compiled (inc_methods_compiled c) = wrap_int (_methods_compiled c + 1)
      /\ _global_compilation_ticks (inc_methods_compiled c)
         = wrap_int (_global_compilation_ticks c + 1)
      /\ _global_compilation_ticks (inc_global_compilation_ticks c)
         = wrap_int (_global_compilation_ticks c + 1)
      /\ _methods_compiled (inc_global_compilation_ticks c) = _methods_compiled c)
  /\ (forall x, is_int x -> x < INT_MAX -> wrap_int (x + 1) = x + 1)
  /\ wrap_int (INT_MAX + 1) = INT_MIN
  /\ (forall c,
        _compiler_state (inc_methods_compiled c) = _compiler_state c
        /\ _bootstrapping (inc_methods_compiled c) = _bootstrapping c
        /\ _bootstrap_compilation_request_handled (inc_methods_compiled c)
           = _bootstrap_compilation_request_handled c
        /\ _compiler_state (inc_global_compilation_ticks c) = _compiler_state c
        /\ _bootstrapping (inc_global_compilation_ticks c) = _bootstrapping c
        /\ _bootstrap_compilation_request_handled (inc_global_compilation_ticks c)
           = _bootstrap_compilation_request_handled c)
  /\ (forall s : State W,
        _methods_compiled (compiler (initialize s)) = _methods_compiled (compiler s)
        /\ _global_compilation_ticks (compiler (initialize s))
           = _global_compilation_ticks (compiler s))
  /\ (forall (fuel : nat) (s : State W),
        exists calls : list WorkerCall,
          worker_calls (trace (state_of (bootstrap fuel s)))
          = worker_calls (trace s) ++ calls
          /\ _methods_compiled (compiler (state_of (bootstrap fuel s)))
             = _methods_compiled (fold_left apply_worker_call calls (compiler s))
          /\ _global_compilation_ticks (compiler (state_of (bootstrap fuel s)))
             = _global_compilation_ticks (fold_left apply_worker_call calls (compiler s))).
Proof.
  split; [| split; [| split; [| split; [| split]]]].
  - intros c. simpl. auto.
  - exact wrap_int_succ.
  - exact wrap_int_succ_max.
  - intros c. simpl. repeat split.
  - exact initialize_counters.
  - exact bootstrap_counters.
Qed.

End Lifecycle.

(** * Runs on the simulated VM *)

Lemma sim_idle_world_after (k : nat) (w : Sim) :
  sim_queue w = 0 -> sim_queue (world_after k w) = 0.
Proof.
  revert w. induction k as [|k IH]; intros w Hq; simpl.
  - exact Hq.
  - apply IH. simpl. now rewrite Hq.
Qed.

Lemma sim_idle_calls (k : nat) (w : Sim) :
  sim_queue w = 0 -> calls_during k w = [].
Proof.
  intros Hq. unfold calls_during. simpl.
  now rewrite (sim_idle_world_after k w Hq).
Qed.

Lemma sim_idle_queue_stays_empty (w : Sim) :
  sim_queue w = 0 -> queue_stays_empty w.
Proof.
  intros Hq k. change (sim_queue (world_after (S k) w) = 0).
  now apply sim_idle_world_after.
Qed.

Lemma idle_never_handled : ~ handled_flag_set idle_state.
Proof.
  intros [Hset | (k & Hin)].
  - discriminate.
  - rewrite sim_idle_calls in Hin by reflexivity. contradiction.
Qed.

(** The run of C1: nothing to submit, an empty queue at every poll, the
    handled flag never set, not in [-Xint] mode; [bootstrap] does not
    terminate. *)
Lemma idle_bootstrap_never_returns :
  Arguments_mode (flags idle_state) = _mixed
  /\ filter is_baseline (Object_klass_methods (world idle_state)) = []
  /\ (forall fuel, submitted (trace (state_of (bootstrap fuel idle_state))) = [])
  /\ queue_stays_empty (world idle_state)
  /\ ~ handled_flag_set idle_state
  /\ ~ bootstrap_terminates idle_state.
Proof.
  assert (Hmode : Arguments_mode (flags idle_state) <> _int) by discriminate.
  assert (Hq : queue_stays_empty (world idle_state))
    by (apply sim_idle_queue_stays_empty; reflexivity).
  repeat split; auto.
  - intros fuel.
    destruct (bootstrap_observations fuel idle_state Hmode) as (calls & b & Hs & _).
    exact Hs.
  - exact idle_never_handled.
  - intros Hterm. apply idle_never_handled.
    apply (idle_bootstrap_terminates_iff idle_state Hmode); auto.
Qed.

Lemma bootstrap_idle_witness :
  (forall fuel, exists s', bootstrap fuel idle_state = Polling s')
  /\ bootstrap_terminates handled_idle_state.
Proof.
  split.
  - apply (bootstrap_idle_terminates_iff_handled idle_state).
    + discriminate.
    + reflexivity.
    + apply sim_idle_queue_stays_empty. reflexivity.
    + exact idle_never_handled.
  - apply (bootstrap_idle_terminates_iff_handled handled_idle_state).
    + discriminate.
    + reflexivity.
    + apply sim_idle_queue_stays_empty. reflexivity.
    + left. reflexivity.
Defined.

Lemma force_comp_bootstrapping_witness :
  force_comp_at_level_simple fresh_compiler (sim_flags _mixed false)
    (sim_world Object_methods false) Object_equals = true
  /\ force_comp_at_level_simple (set_bootstrapping true fresh_compiler)
       (sim_flags _mixed false) (sim_world Object_methods false) Object_equals = false.
Proof.
  split.
  - reflexivity.
  - apply force_comp_false_while_bootstrapping. reflexivity.
Defined.

Lemma force_comp_excluded_witness :
  (force_comp_at_level_simple fresh_compiler (sim_flags _mixed false)
     (sim_world Object_methods false) Object_equals = true
   <-> In java_base [jdk_internal_vm_compiler; java_base])
  /\ (forall other : list oop,
        (forall m, In m [jdk_internal_vm_compiler; java_base] <-> In m other) ->
        force_comp_at_level_simple fresh_compiler (sim_flags _mixed false)
          (sim_world Object_methods false) Object_equals
        = exclude_loop other java_base).
Proof.
  apply (force_comp_iff_module_excluded fresh_compiler (sim_flags _mixed false)
           (sim_world Object_methods false) Object_equals 64
           [jdk_internal_vm_compiler; java_base]); reflexivity.
Defined.

Lemma force_comp_fails_open_witness :
  force_comp_at_level_simple fresh_compiler native_library_flags
    (sim_world Object_methods false) Object_equals = false
  /\ force_comp_at_level_simple fresh_compiler (sim_flags _mixed false)
       (sim_bridge None 128 (Some [java_base])) Object_equals = false
  /\ force_comp_at_level_simple fresh_compiler (sim_flags _mixed false)
       (sim_bridge (Some 64) 0 (Some [java_base])) Object_equals = false
  /\ force_comp_at_level_simple fresh_compiler (sim_flags _mixed false)
       (sim_bridge (Some 64) 128 None) Object_equals = false.
Proof.
  split; [| split; [| split]]; apply force_comp_fails_open.
  - left. reflexivity.
  - right. left. reflexivity.
  - right. right. left. exists 64. split; reflexivity.
  - right. right. right. exists 64. split; reflexivity.
Defined.


Lemma bootstrap_submits_witness :
  let s := sim_state Object_methods false _mixed in
  let jobs := [bootstrap_job Object_equals; bootstrap_job Object_toString;
               bootstrap_job Object_finalize] in
  submitted (trace (state_of (bootstrap 2 s))) = jobs
  /\ world (before_poll s) = submit_jobs jobs (world s)
  /\ sim_queue (submit_jobs jobs (world s)) = 3
  /\ (exists n,
        (n <= 2)%nat
        /\ (finished (bootstrap 2 s) = false -> n = 2%nat)
        /\ let w := world_after n (submit_jobs jobs (world s)) in
           match bootstrap 2 s with
           | Returns s' =>
               exists runtime,
                 JVMCI_java_runtime w = Some runtime
                 /\ world s' = JVMCIRuntime_bootstrap_finished runtime (compiler s') w
           | Fatal _ s' => world s' = w
           | Polling s' => world s' = w
           end).
Proof.
  assert (Hmode : Arguments_mode (flags (sim_state Object_methods false _mixed)) <> _int)
    by discriminate.
  destruct (bootstrap_submits_baseline 2 (sim_state Object_methods false _mixed) Hmode)
    as (Hjobs & Hstart & Hend & _).
  split; [exact Hjobs | split; [exact Hstart | split; [reflexivity | exact Hend]]].
Defined.

Lemma bootstrap_failing_notification_witness :
  let s := sim_state Object_methods true _mixed in
  sim_finish_saw_bootstrapping (world (state_of (bootstrap 3 s))) = Some false
  /\ exists s2 : State Sim,
    CompileBroker_queue_size CompLevel_full_optimization (world s2) = 0
    /\ _bootstrapping (compiler s2) = false
    /\ finish_notifications (trace s2) = finish_notifications (trace s)
    /\ match JVMCI_java_runtime (world s2) with
       | None => bootstrap 3 s = Fatal SIGSEGV s2
       | Some runtime =>
           exists s3 : State Sim,
             bootstrap 3 s = Returns s3
             /\ trace s3 = trace s2 ++ [Runtime_bootstrap_finished runtime]
             /\ compiler s3 = compiler s2
             /\ world s3
                = JVMCIRuntime_bootstrap_finished runtime (compiler s2) (world s2)
             /\ (HAS_PENDING_EXCEPTION
                   (JVMCIRuntime_bootstrap_finished runtime (compiler s2) (world s2))
                 = true ->
                 HAS_PENDING_EXCEPTION (world s3) = true
                 /\ _bootstrapping (compiler s3) = false)
       end.
Proof.
  split; [reflexivity |].
  apply (bootstrap_clears_flag_before_notifying 3 (sim_state Object_methods true _mixed)).
  - discriminate.
  - reflexivity.
Defined.

(** The run of C9: from [INT_MAX] an increment takes either counter to
    [INT_MIN], which is neither one more nor no less. *)
Lemma saturated_counters_wrap :
  _methods_compiled (inc_methods_compiled saturated_compiler)
  <> _methods_compiled saturated_compiler + 1
  /\ _methods_compiled (inc_methods_compiled saturated_compiler)
     < _methods_compiled saturated_compiler
  /\ _global_compilation_ticks (inc_methods_compiled saturated_compiler)
     < _global_compilation_ticks saturated_compiler
  /\ _global_compilation_ticks (inc_global_compilation_ticks saturated_compiler)
     < _global_compilation_ticks saturated_compiler.
Proof. cbv. repeat split; congruence. Qed.

Lemma counters_increment_witness :
  is_int 41 /\ 41 < INT_MAX /\ wrap_int (41 + 1) = 41 + 1.
Proof.
  assert (Hint : is_int 41) by (unfold is_int, INT_MIN, INT_MAX; lia).
  assert (Hlt : 41 < INT_MAX) by (unfold INT_MAX; lia).
  split; [exact Hint | split; [exact Hlt |]].
  exact (proj1 (proj2 (@counters_increment_wrapping Sim Sim_External)) 41 Hint Hlt).
Defined.

(** * Further properties *)

(** ** Counters under any number of worker calls *)

Lemma wrap_int_add_l (a b : Z) : wrap_int (wrap_int a + b) = wrap_int (a + b).
Proof.
  unfold wrap_int.
  replace ((a + 2147483648) mod 4294967296 - 2147483648 + b + 2147483648)
    with ((a + 2147483648) mod 4294967296 + b) by lia.
  rewrite Zplus_mod_idemp_l. f_equal. f_equal. lia.
Qed.

Lemma fold_worker_calls_counters (calls : list WorkerCall) (c : JVMCICompiler) :
  _methods_compiled (fold_left apply_worker_call calls c)
  = (if Z.eqb (methods_increments calls) 0 then _methods_compiled c
     else wrap_int (_methods_compiled c + methods_increments calls))
  /\ _global_compilation_ticks (fold_left apply_worker_call calls c)
     = (if Z.eqb (ticks_increments calls) 0 then _global_compilation_ticks c
        else wrap_int (_global_compilation_ticks c + ticks_increments calls)).
Proof.
  assert (Hm : forall l, 0 <= methods_increments l)
    by (induction l as [|[] l IH]; cbn [methods_increments ticks_increments]; lia).
  assert (Ht : forall l, 0 <= ticks_increments l)
    by (induction l as [|[] l IH]; cbn [methods_increments ticks_increments]; lia).
  revert c. induction calls as [|k rest IH]; intros c.
  - simpl. auto.
  - cbn [fold_left]. destruct (IH (apply_worker_call c k)) as (IHm & IHt).
    rewrite IHm, IHt. specialize (Hm rest). specialize (Ht rest).
    destruct k; cbn [apply_worker_call methods_increments ticks_increments
                     inc_methods_compiled inc_global_compilation_ticks
                     set_bootstrap_compilation_request_handled
                     _methods_compiled _global_compilation_ticks].
    + split.
      * destruct (methods_increments rest =? 0) eqn:E.
        -- apply Z.eqb_eq in E. rewrite E. reflexivity.
        -- replace (1 + methods_increments rest =? 0) with false
             by (symmetry; apply Z.eqb_neq; lia).
           rewrite wrap_int_add_l. f_equal. lia.
      * destruct (ticks_increments rest =? 0) eqn:E.
        -- apply Z.eqb_eq in E. rewrite E. reflexivity.
        -- replace (1 + ticks_increments rest =? 0) with false
             by (symmetry; apply Z.eqb_neq; lia).
           rewrite wrap_int_add_l. f_equal. lia.
    + split; [reflexivity |].
      destruct (ticks_increments rest =? 0) eqn:E.
      * apply Z.eqb_eq in E. rewrite E. reflexivity.
      * replace (1 + ticks_increments rest =? 0) with false
          by (symmetry; apply Z.eqb_neq; lia).
        rewrite wrap_int_add_l. f_equal. lia.
    + split; reflexivity.
Qed.

Lemma increments_Permutation (calls calls' : list WorkerCall) :
  Permutation calls calls' ->
  methods_increments calls = methods_increments calls'
  /\ ticks_increments calls = ticks_increments calls'.
Proof.
  induction 1 as [| k l l' _ [IHm IHt] | k k' l | l l' l'' _ [IH1 IH2] _ [IH3 IH4]].
  - auto.
  - destruct k; cbn [methods_increments ticks_increments]; lia.
  - destruct k, k'; cbn [methods_increments ticks_increments]; lia.
  - lia.
Qed.

(** X1. Counting of worker calls.  On a compiler whose counters are [int]s,
    any sequence of calls of [inc_methods_compiled],
    [inc_global_compilation_ticks] and the handled-flag setter leaves
    [_methods_compiled] at its old value plus the number of
    [inc_methods_compiled] calls and [_global_compilation_ticks] at its old
    value plus the number of calls of either increment, both modulo 2^32;
    no increment is lost, and the order of the calls does not matter. *)
Theorem worker_calls_count (calls : list WorkerCall) (c : JVMCICompiler) :
  is_int (_methods_compiled c) ->
  is_int (_global_compilation_ticks c) ->
  _methods_compiled (fold_left apply_worker_call calls c)
  = wrap_int (_methods_compiled c + methods_increments calls)
  /\ _global_compilation_ticks (fold_left apply_worker_call calls c)
     = wrap_int (_global_compilation_ticks c + ticks_increments calls)
  /\ (forall calls',
        Permutation calls calls' ->
        _methods_compiled (fold_left apply_worker_call calls' c)
        = _methods_compiled (fold_left apply_worker_call calls c)
        /\ _global_compilation_ticks (fold_left apply_worker_call calls' c)
           = _global_compilation_ticks (fold_left apply_worker_call calls c)).
Proof.
  intros Hm Ht.
  assert (Hcount : forall l,
             _methods_compiled (fold_left apply_worker_call l c)
             = wrap_int (_methods_compiled c + methods_increments l)
             /\ _global_compilation_ticks (fold_left apply_worker_call l c)
                = wrap_int (_global_compilation_ticks c + ticks_increments l)).
  { intros l. destruct (fold_worker_calls_counters l c) as (-> & ->). split.
    - destruct (methods_increments l =? 0) eqn:E; [| reflexivity].
      apply Z.eqb_eq in E. rewrite E, Z.add_0_r. symmetry. now apply wrap_int_small.
    - destruct (ticks_increments l =? 0) eqn:E; [| reflexivity].
      apply Z.eqb_eq in E. rewrite E, Z.add_0_r. symmetry. now apply wrap_int_small. }
  destruct (Hcount calls) as (H1 & H2).
  split; [exact H1 | split; [exact H2 |]].
  intros calls' Hperm. destruct (Hcount calls') as (H3 & H4).
  destruct (increments_Permutation calls calls' Hperm) as (E1 & E2).
  rewrite H1, H2, H3, H4, E1, E2. auto.
Qed.

(** ** Traces of bootstrap *)

Lemma sleeps_app (a b : list Event) : sleeps (a ++ b) = sleeps a ++ sleeps b.
Proof.
  induction a as [|e a IH]; simpl; [reflexivity|].
  destruct e; simpl; now rewrite IH.
Qed.

Lemma tty_output_app (a b : list Event) : tty_output (a ++ b) = tty_output a ++ tty_output b.
Proof.
  induction a as [|e a IH]; simpl; [reflexivity|].
  destruct e; simpl; now rewrite IH.
Qed.

Lemma sleeps_Concurrent (calls : list WorkerCall) : sleeps (map Concurrent calls) = [].
Proof. induction calls; simpl; auto. Qed.

Lemma tty_output_Concurrent (calls : list WorkerCall) :
  tty_output (map Concurrent calls) = [].
Proof. induction calls; simpl; auto. Qed.

Lemma sleeps_jobs (jobs : list CompileJob) : sleeps (map Broker_compile_method jobs) = [].
Proof. induction jobs; simpl; auto. Qed.

Lemma tty_output_jobs (jobs : list CompileJob) :
  tty_output (map Broker_compile_method jobs) = [].
Proof. induction jobs; simpl; auto. Qed.

Lemma sleeps_dots (n : nat) : sleeps (repeat (Tty_print_raw ".") n) = [].
Proof. induction n; simpl; auto. Qed.

Lemma submitted_dots (n : nat) : submitted (repeat (Tty_print_raw ".") n) = [].
Proof. induction n; simpl; auto. Qed.

Section Progress.

Context {W : Type} `{External W}.

Lemma print_dots_run (n : nat) (z : Z) (s : State W) :
  n = Z.to_nat (Z.quot (_methods_compiled (compiler s)) 100 - z) ->
  print_dots n z s
  = (Z.max z (Z.quot (_methods_compiled (compiler s)) 100),
     {| compiler := compiler s;
        flags := flags s;
        world := world s;
        trace := trace s ++ repeat (Tty_print_raw ".") n |}).
Proof.
  revert z s. induction n as [|n IH]; intros z s Hn.
  - cbn [print_dots repeat]. rewrite app_nil_r. f_equal; [lia | now destruct s].
  - cbn [print_dots].
    replace (z <? Z.quot (_methods_compiled (compiler s)) 100) with true
      by (symmetry; apply Z.ltb_lt; lia).
    rewrite IH by (cbn [emit call compiler]; lia).
    cbn [emit call compiler flags world trace repeat].
    rewrite <- app_assoc. f_equal. lia.
Qed.

End Progress.

Section BootstrapRuns.

Context {W : Type} `{External W}.

Lemma before_poll_trace (s : State W) :
  trace (before_poll s)
  = trace s
    ++ (if PrintBootstrap (flags s) then [Tty_print "Bootstrapping JVMCI"] else [])
    ++ map Broker_compile_method
         (map bootstrap_job (filter is_baseline (Object_klass_methods (world s))))
  /\ flags (before_poll s) = set_CompileTheWorld false (flags s)
  /\ compiler (before_poll s) = set_bootstrapping true (compiler s).
Proof.
  unfold before_poll. simpl.
  match goal with
  | |- context [submit_object_methods ?ms ?st] =>
      destruct (submit_object_methods_spec ms st) as (Ht & Hc & Hf)
  end.
  rewrite Ht, Hc, Hf.
  destruct (PrintBootstrap (flags s)); simpl; rewrite <- ?app_assoc; auto.
Qed.

Lemma progress_trace (z : Z) (s : State W) :
  let s' := snd (if PrintBootstrap (flags s) then print_progress z s else (z, s)) in
  exists n, trace s' = trace s ++ repeat (Tty_print_raw ".") n
            /\ (PrintBootstrap (flags s) = false -> n = O)
            /\ flags s' = flags s /\ world s' = world s /\ compiler s' = compiler s.
Proof.
  destruct (PrintBootstrap (flags s)); cbv zeta.
  - unfold print_progress. rewrite print_dots_run by reflexivity.
    simpl. eexists. repeat split. discriminate.
  - exists O. simpl. now rewrite app_nil_r.
Qed.

Lemma bootstrap_finish_trace (start : Z) (ctw : bool) (s : State W) :
  exists post,
    trace (state_of (bootstrap_finish start ctw s)) = trace s ++ post
    /\ sleeps post = []
    /\ submitted post = []
    /\ (PrintBootstrap (flags s) = false -> tty_output post = []).
Proof.
  unfold bootstrap_finish.
  destruct (PrintBootstrap (flags s)); simpl;
    match goal with
    | |- context [JVMCI_java_runtime ?w] => destruct (JVMCI_java_runtime w)
    end; simpl; rewrite <- ?app_assoc.
  - eexists. split; [reflexivity |]. simpl. repeat split. discriminate.
  - eexists. split; [reflexivity |]. simpl. repeat split. discriminate.
  - eexists. split; [reflexivity |]. simpl. repeat split.
  - exists []. rewrite app_nil_r. simpl. repeat split.
Qed.

Lemma bootstrap_finish_state (start : Z) (ctw : bool) (s : State W) :
  match bootstrap_finish start ctw s with
  | Returns s' =>
      flags s' = set_CompileTheWorld ctw (flags s)
      /\ compiler s' = set_bootstrapping false (compiler s)
  | Fatal _ s' =>
      flags s' = flags s /\ compiler s' = set_bootstrapping false (compiler s)
  | Polling _ => False
  end.
Proof.
  unfold bootstrap_finish.
  destruct (PrintBootstrap (flags s)); simpl;
    match goal with
    | |- context [JVMCI_java_runtime ?w] => destruct (JVMCI_java_runtime w)
    end; simpl; auto.
Qed.

Lemma poll_sleeps (fuel : nat) (first_round : bool) (z : Z) (s : State W) :
  exists n,
    sleeps (trace (state_of (poll fuel first_round z s)))
    = sleeps (trace s) ++ repeat (100, true) n
    /\ (n <= fuel)%nat
    /\ (finished (poll fuel first_round z s) = true -> (1 <= n)%nat)
    /\ (finished (poll fuel first_round z s) = false -> n = fuel).
Proof.
  revert first_round z s. induction fuel as [|fuel IH]; intros fr z s.
  - exists O. simpl. rewrite app_nil_r. repeat split; auto. discriminate.
  - cbn [poll]. set (s1 := sleep 100 true s).
    assert (H1 : sleeps (trace s1) = sleeps (trace s) ++ [(100, true)]).
    { destruct (sleep_spec 100 true s) as (_ & _ & _ & Ht). subst s1.
      rewrite Ht, sleeps_app. simpl. now rewrite sleeps_Concurrent. }
    destruct (negb (_bootstrap_compilation_request_handled (compiler s1)) && fr
              && (CompileBroker_queue_size CompLevel_full_optimization (world s1) =? 0)).
    + destruct (IH fr z s1) as (n & Hs & Hle & Hfin & Hnot).
      exists (S n). rewrite Hs, H1, <- app_assoc. simpl.
      repeat split; auto; lia.
    + destruct (progress_trace z s1) as (d & Ht & _).
      destruct (if PrintBootstrap (flags s1) then print_progress z s1 else (z, s1))
        as [z' s2]; simpl in Ht.
      assert (H2 : sleeps (trace s2) = sleeps (trace s) ++ [(100, true)])
        by (rewrite Ht, sleeps_app, sleeps_dots, app_nil_r; exact H1).
      destruct (negb (CompileBroker_queue_size CompLevel_full_optimization (world s1) =? 0)).
      * destruct (IH false z' s2) as (n & Hs & Hle & Hfin & Hnot).
        exists (S n). rewrite Hs, H2, <- app_assoc. simpl.
        repeat split; auto; lia.
      * exists 1%nat. simpl. repeat split; auto; try lia; discriminate.
Qed.

Lemma poll_silent (fuel : nat) (first_round : bool) (z : Z) (s : State W) :
  PrintBootstrap (flags s) = false ->
  tty_output (trace (state_of (poll fuel first_round z s))) = tty_output (trace s).
Proof.
  revert first_round z s. induction fuel as [|fuel IH]; intros fr z s Hq.
  - reflexivity.
  - cbn [poll]. set (s1 := sleep 100 true s).
    destruct (sleep_spec 100 true s) as (_ & _ & Hf & Ht). fold s1 in Hf, Ht.
    assert (Hq1 : PrintBootstrap (flags s1) = false) by (now rewrite Hf).
    assert (H1 : tty_output (trace s1) = tty_output (trace s)).
    { rewrite Ht, tty_output_app. simpl.
      now rewrite tty_output_Concurrent, app_nil_r. }
    rewrite Hq1.
    destruct (negb (_bootstrap_compilation_request_handled (compiler s1)) && fr
              && (CompileBroker_queue_size CompLevel_full_optimization (world s1) =? 0)).
    + now rewrite IH.
    + destruct (negb (CompileBroker_queue_size CompLevel_full_optimization (world s1) =? 0)).
      * now rewrite IH.
      * exact H1.
Qed.

(** The first poll that finds the queue empty after the first round is over
    ends the loop. *)
Lemma poll_returns_when_drained (k : nat) (first_round : bool) (z : Z) (s : State W) :
  queue_size_at k (world s) = 0 ->
  first_round = false
  \/ _bootstrap_compilation_request_handled (compiler s) = true
  \/ (exists j, (j <= k)%nat
                /\ In Call_set_bootstrap_compilation_request_handled
                      (calls_during j (world s)))
  \/ (exists j, (j < k)%nat /\ queue_size_at j (world s) <> 0) ->
  exists s', poll (S k) first_round z s = Returns s'.
Proof.
  revert first_round z s. induction k as [|k IH]; intros fr z s Hq Hwhy.
  - cbn [poll]. unfold queue_size_at in Hq. cbn [world_after] in Hq.
    destruct (sleep_spec 100 true s) as (Hw & _). rewrite Hw, Hq.
    assert (Hexit : negb (_bootstrap_compilation_request_handled
                            (compiler (sleep 100 true s))) && fr = false).
    { destruct Hwhy as [-> | [Hh | [(j & Hj & Hin) | (j & Hj & _)]]].
      - apply andb_false_r.
      - replace (_bootstrap_compilation_request_handled (compiler (sleep 100 true s)))
          with true by (symmetry; apply handled_after_sleep; auto).
        reflexivity.
      - assert (j = O) by lia. subst j.
        replace (_bootstrap_compilation_request_handled (compiler (sleep 100 true s)))
          with true by (symmetry; apply handled_after_sleep; auto).
        reflexivity.
      - lia. }
    rewrite Hexit. simpl.
    destruct (if PrintBootstrap _ then _ else _) as [z' s2]. eauto.
  - cbn [poll]. set (s1 := sleep 100 true s).
    destruct (sleep_spec 100 true s) as (Hw & _). fold s1 in Hw.
    assert (Hshift : forall j, queue_size_at j (world s1) = queue_size_at (S j) (world s))
      by (intros j; unfold queue_size_at; now rewrite Hw).
    destruct (negb (_bootstrap_compilation_request_handled (compiler s1)) && fr
              && (CompileBroker_queue_size CompLevel_full_optimization (world s1) =? 0))
      eqn:Hcond.
    + apply andb_prop in Hcond as [Hcond Hq1]. apply andb_prop in Hcond as [Hh1 Hfr].
      apply negb_true_iff in Hh1. apply Z.eqb_eq in Hq1.
      apply IH; [now rewrite Hshift |].
      destruct Hwhy as [-> | [Hh | [(j & Hj & Hin) | (j & Hj & Hne)]]].
      * discriminate.
      * assert (Hc : _bootstrap_compilation_request_handled (compiler s1) = true)
          by (apply handled_after_sleep; auto).
        congruence.
      * destruct j as [|j].
        -- assert (Hc : _bootstrap_compilation_request_handled (compiler s1) = true)
             by (apply handled_after_sleep; auto).
           congruence.
        -- right. right. left. exists j. split; [lia |].
           unfold s1. now rewrite calls_during_after_sleep.
      * destruct j as [|j].
        -- exfalso. apply Hne. unfold queue_size_at. cbn [world_after].
           now rewrite <- Hw.
        -- right. right. right. exists j. split; [lia |]. now rewrite Hshift.
    + destruct (progress_trace z s1) as (d & _ & _ & _ & Hw2 & _).
      destruct (if PrintBootstrap (flags s1) then print_progress z s1 else (z, s1))
        as [z' s2]; simpl in Hw2.
      destruct (negb (CompileBroker_queue_size CompLevel_full_optimization (world s1) =? 0)).
      * apply IH; [| now left]. rewrite Hw2. now rewrite Hshift.
      * eauto.
Qed.

(** A loop that has ended has read an empty queue at one of its polls. *)
Lemma poll_finished_drained (fuel : nat) (first_round : bool) (z : Z) (s : State W) :
  finished (poll fuel first_round z s) = true ->
  exists k, (k < fuel)%nat /\ queue_size_at k (world s) = 0.
Proof.
  revert first_round z s. induction fuel as [|fuel IH]; intros fr z s Hfin.
  - discriminate.
  - cbn [poll] in Hfin. set (s1 := sleep 100 true s) in *.
    destruct (sleep_spec 100 true s) as (Hw & _). fold s1 in Hw.
    destruct (CompileBroker_queue_size CompLevel_full_optimization (world s1) =? 0) eqn:Hq.
    + exists O. split; [lia |]. unfold queue_size_at. cbn [world_after].
      rewrite <- Hw. now apply Z.eqb_eq.
    + rewrite andb_false_r in Hfin.
      destruct (progress_trace z s1) as (d & _ & _ & _ & Hw2 & _).
      destruct (if PrintBootstrap (flags s1) then print_progress z s1 else (z, s1))
        as [z' s2]; simpl in Hw2, Hfin.
      destruct (IH false z' s2 Hfin) as (k & Hk & Hz).
      exists (S k). split; [lia |].
      unfold queue_size_at in *. cbn [world_after]. now rewrite <- Hw, <- Hw2.
Qed.

End BootstrapRuns.

(** ** Further properties of bootstrap *)

Section BootstrapExtras.

Context {W : Type} `{External W}.

Lemma set_CompileTheWorld_restore (g : Globals) :
  set_CompileTheWorld (CompileTheWorld g) (set_CompileTheWorld false g) = g.
Proof. now destruct g. Qed.

Lemma force_comp_bootstrapping_only (c c' : JVMCICompiler) (g : Globals) (w : W)
    (method : Method) :
  _bootstrapping c = _bootstrapping c' ->
  force_comp_at_level_simple c g w method = force_comp_at_level_simple c' g w method.
Proof. unfold force_comp_at_level_simple. now intros ->. Qed.

(** X3. The scope of the [CompileTheWorld] setting.  Outside of [-Xint]
    mode, [CompileTheWorld] is off for as long as [bootstrap] is in its poll
    loop, whatever it was before, and a [bootstrap] that returns hands back
    exactly the flags it was called with. *)
Theorem bootstrap_CompileTheWorld_scoped (fuel : nat) (s : State W) :
  Arguments_mode (flags s) <> _int ->
  match bootstrap fuel s with
  | Returns s' => flags s' = flags s
  | Fatal _ s' => CompileTheWorld (flags s') = false
  | Polling s' => CompileTheWorld (flags s') = false
  end.
Proof.
  intros Hmode. rewrite (bootstrap_unfold fuel s Hmode).
  destruct (before_poll_trace s) as (_ & Hf0 & _).
  destruct (poll_polled fuel true 0 (before_poll s)) as (evs & _ & _ & _ & Hf).
  pose proof (poll_outcome fuel true 0 (before_poll s)) as Hout.
  destruct (poll fuel true 0 (before_poll s)) as [s5 | e s5 | s5]; simpl in *.
  - pose proof (bootstrap_finish_state (os_javaTimeMillis (world s))
                  (CompileTheWorld (flags s)) s5) as Hfin.
    destruct (bootstrap_finish _ _ s5) as [s' | e s' | s'].
    + destruct Hfin as (-> & _). rewrite Hf, Hf0. apply set_CompileTheWorld_restore.
    + destruct Hfin as (-> & _). now rewrite Hf, Hf0.
    + contradiction.
  - contradiction.
  - now rewrite Hf, Hf0.
Qed.

(** X4. The policy during and after bootstrap.  Outside of [-Xint] mode,
    [_bootstrapping] is true whenever [bootstrap] is in its poll loop, so
    that [force_comp_at_level_simple] then answers false for every method
    and every exclusion list; once [bootstrap] has ended the flag is false
    and the answer is that of a compiler that never bootstrapped. *)
Theorem bootstrap_suspends_policy (fuel : nat) (s : State W) :
  Arguments_mode (flags s) <> _int ->
  match bootstrap fuel s with
  | Polling s' =>
      _bootstrapping (compiler s') = true
      /\ forall g w method, force_comp_at_level_simple (compiler s') g w method = false
  | Returns s' | Fatal _ s' =>
      _bootstrapping (compiler s') = false
      /\ forall g w method,
           force_comp_at_level_simple (compiler s') g w method
           = force_comp_at_level_simple fresh_compiler g w method
  end.
Proof.
  intros Hmode. rewrite (bootstrap_unfold fuel s Hmode).
  destruct (before_poll_trace s) as (_ & _ & Hc0).
  destruct (poll_polled fuel true 0 (before_poll s)) as (evs & _ & _ & Hc & _).
  pose proof (poll_outcome fuel true 0 (before_poll s)) as Hout.
  assert (Hduring : _bootstrapping (compiler (state_of (poll fuel true 0 (before_poll s))))
                    = true).
  { rewrite Hc. destruct (fold_worker_calls_state (worker_calls evs)
                            (compiler (before_poll s))) as (_ & ->).
    now rewrite Hc0. }
  destruct (poll fuel true 0 (before_poll s)) as [s5 | e s5 | s5]; simpl in *.
  - pose proof (bootstrap_finish_state (os_javaTimeMillis (world s))
                  (CompileTheWorld (flags s)) s5) as Hfin.
    destruct (bootstrap_finish _ _ s5) as [s' | e s' | s'];
      try contradiction; destruct Hfin as (_ & Hc').
    + split; [now rewrite Hc' |]. intros g w method.
      apply force_comp_bootstrapping_only. now rewrite Hc'.
    + split; [now rewrite Hc' |]. intros g w method.
      apply force_comp_bootstrapping_only. now rewrite Hc'.
  - contradiction.
  - split; [exact Hduring |]. intros g w method.
    unfold force_comp_at_level_simple. now rewrite Hduring.
Qed.

End BootstrapExtras.

Section BootstrapTermination.

Context {W : Type} `{External W}.

Lemma before_poll_handled (s : State W) :
  _bootstrap_compilation_request_handled (compiler (before_poll s))
  = _bootstrap_compilation_request_handled (compiler s).
Proof. destruct (before_poll_trace s) as (_ & _ & ->). reflexivity. Qed.

(** X5. When bootstrap returns.  Outside of [-Xint] mode, let the polls be
    numbered from 0 and start after the submissions.  If poll [k] finds the
    queue empty, and by then the first round is over (the handled flag was
    set at entry or by a worker during one of the sleeps up to [k], or an
    earlier poll found the queue non-empty), then [bootstrap] ends after at
    most [k + 1] sleeps. *)
Theorem bootstrap_ends_when_drained (k : nat) (s : State W) :
  Arguments_mode (flags s) <> _int ->
  queue_size_at k (world (before_poll s)) = 0 ->
  _bootstrap_compilation_request_handled (compiler s) = true
  \/ (exists j, (j <= k)%nat
                /\ In Call_set_bootstrap_compilation_request_handled
                      (calls_during j (world (before_poll s))))
  \/ (exists j, (j < k)%nat /\ queue_size_at j (world (before_poll s)) <> 0) ->
  finished (bootstrap (S k) s) = true /\ bootstrap_terminates s.
Proof.
  intros Hmode Hq Hwhy.
  assert (Hfin : finished (bootstrap (S k) s) = true).
  { rewrite (bootstrap_finished_poll (S k) s Hmode).
    destruct (poll_returns_when_drained k true 0 (before_poll s) Hq) as (s' & ->).
    - right. rewrite before_poll_handled. exact Hwhy.
    - reflexivity. }
  split; [exact Hfin | now exists (S k)].
Qed.

(** X6. Bootstrap waits for the queue.  Outside of [-Xint] mode, a
    [bootstrap] that has ended within [n] sleeps has found the queue empty
    at one of its first [n] polls; as long as every poll finds jobs in the
    queue, [bootstrap] is still in its loop. *)
Theorem bootstrap_waits_for_queue (n : nat) (s : State W) :
  Arguments_mode (flags s) <> _int ->
  (finished (bootstrap n s) = true ->
   exists k, (k < n)%nat /\ queue_size_at k (world (before_poll s)) = 0)
  /\ ((forall k, (k < n)%nat -> queue_size_at k (world (before_poll s)) <> 0) ->
      exists s', bootstrap n s = Polling s').
Proof.
  intros Hmode.
  assert (Hdrained : finished (bootstrap n s) = true ->
                     exists k, (k < n)%nat
                               /\ queue_size_at k (world (before_poll s)) = 0).
  { rewrite (bootstrap_finished_poll n s Hmode). apply poll_finished_drained. }
  split; [exact Hdrained |].
  intros Hbusy.
  destruct (bootstrap n s) as [s' | e s' | s'] eqn:Hrun.
  - destruct (Hdrained eq_refl) as (k & Hk & Hz). now elim (Hbusy k Hk).
  - destruct (Hdrained eq_refl) as (k & Hk & Hz). now elim (Hbusy k Hk).
  - now exists s'.
Qed.

(** X8. Bootstrap sleeps.  Outside of [-Xint] mode every sleep of
    [bootstrap] is [os::sleep(THREAD, 100, true)]; there is one per unit of
    fuel used, a [bootstrap] that has ended has slept at least once, and one
    that is still in its loop has slept once per unit of fuel. *)
Theorem bootstrap_sleeps (fuel : nat) (s : State W) :
  Arguments_mode (flags s) <> _int ->
  exists n,
    sleeps (trace (state_of (bootstrap fuel s))) = sleeps (trace s) ++ repeat (100, true) n
    /\ (n <= fuel)%nat
    /\ (finished (bootstrap fuel s) = true -> (1 <= n)%nat)
    /\ (finished (bootstrap fuel s) = false -> n = fuel).
Proof.
  intros Hmode.
  rewrite (bootstrap_finished_poll fuel s Hmode), (bootstrap_unfold fuel s Hmode).
  destruct (before_poll_trace s) as (Ht0 & _).
  assert (Hs0 : sleeps (trace (before_poll s)) = sleeps (trace s)).
  { rewrite Ht0, !sleeps_app, sleeps_jobs.
    destruct (PrintBootstrap (flags s)); simpl; now rewrite app_nil_r. }
  destruct (poll_sleeps fuel true 0 (before_poll s)) as (n & Hs & Hrest).
  exists n. split; [| exact Hrest].
  rewrite Hs0 in Hs.
  destruct (poll fuel true 0 (before_poll s)) as [s5 | e s5 | s5]; simpl in *; auto.
  destruct (bootstrap_finish_trace (os_javaTimeMillis (world s))
              (CompileTheWorld (flags s)) s5) as (post & -> & Hp & _).
  now rewrite sleeps_app, Hp, app_nil_r.
Qed.

End BootstrapTermination.

Section BootstrapOutput.

Context {W : Type} `{External W}.

Lemma Mode_eqb_int (m : Mode) : Mode_eqb m _int = false -> m <> _int.
Proof. intros Hm Heq. rewrite Heq in Hm. discriminate. Qed.

(** X9. Output is gated by [PrintBootstrap].  With [PrintBootstrap] off,
    [bootstrap] writes nothing to [tty], in any mode and however it ends. *)
Theorem bootstrap_silent (fuel : nat) (s : State W) :
  PrintBootstrap (flags s) = false ->
  tty_output (trace (state_of (bootstrap fuel s))) = tty_output (trace s).
Proof.
  intros Hquiet.
  destruct (Mode_eqb (Arguments_mode (flags s)) _int) eqn:Hm.
  - unfold bootstrap. now rewrite Hm.
  - apply Mode_eqb_int in Hm. rewrite (bootstrap_unfold fuel s Hm).
    destruct (before_poll_trace s) as (Ht0 & Hf0 & _).
    assert (Hq0 : PrintBootstrap (flags (before_poll s)) = false)
      by (now rewrite Hf0).
    assert (H0 : tty_output (trace (before_poll s)) = tty_output (trace s)).
    { rewrite Ht0, Hquiet, !tty_output_app, tty_output_jobs. simpl.
      now rewrite app_nil_r. }
    pose proof (poll_silent fuel true 0 (before_poll s) Hq0) as Hp.
    destruct (poll_polled fuel true 0 (before_poll s)) as (_ & _ & _ & _ & Hf).
    rewrite H0 in Hp.
    destruct (poll fuel true 0 (before_poll s)) as [s5 | e s5 | s5]; simpl in *; auto.
    destruct (bootstrap_finish_trace (os_javaTimeMillis (world s))
                (CompileTheWorld (flags s)) s5) as (post & -> & _ & _ & Hpost).
    rewrite tty_output_app, Hpost, app_nil_r; [exact Hp | congruence].
Qed.

(** X11. Submission comes first.  Outside of [-Xint] mode the events of a
    run of [bootstrap] split in two: a first part without any sleep, which
    holds all the submissions, and a second part without any submission. *)
Theorem bootstrap_submits_before_polling (fuel : nat) (s : State W) :
  Arguments_mode (flags s) <> _int ->
  exists pre post : list Event,
    trace (state_of (bootstrap fuel s)) = trace s ++ pre ++ post
    /\ sleeps pre = []
    /\ submitted pre
       = map bootstrap_job (filter is_baseline (Object_klass_methods (world s)))
    /\ submitted post = [].
Proof.
  intros Hmode. rewrite (bootstrap_unfold fuel s Hmode).
  destruct (before_poll_trace s) as (Ht0 & _).
  destruct (poll_polled fuel true 0 (before_poll s)) as (evs & Ht & Hp & _).
  set (jobs := map bootstrap_job (filter is_baseline (Object_klass_methods (world s)))) in *.
  set (pre := (if PrintBootstrap (flags s) then [Tty_print "Bootstrapping JVMCI"] else [])
              ++ map Broker_compile_method jobs) in *.
  assert (Hpre : sleeps pre = [] /\ submitted pre = jobs).
  { unfold pre. rewrite sleeps_app, submitted_app, sleeps_jobs, submitted_jobs.
    destruct (PrintBootstrap (flags s)); simpl; auto. }
  destruct Hpre as (Hpre1 & Hpre2).
  pose proof (poll_events_submitted evs Hp) as Hevs.
  destruct (poll fuel true 0 (before_poll s)) as [s5 | e s5 | s5]; simpl in *.
  - destruct (bootstrap_finish_trace (os_javaTimeMillis (world s))
                (CompileTheWorld (flags s)) s5) as (post & -> & _ & Hpost & _).
    exists pre, (evs ++ post). rewrite Ht, Ht0, <- !app_assoc.
    repeat split; auto. now rewrite submitted_app, Hevs, Hpost.
  - exists pre, evs. rewrite Ht, Ht0, <- !app_assoc. auto.
  - exists pre, evs. rewrite Ht, Ht0, <- !app_assoc. auto.
Qed.

(** X12. One notification per completed bootstrap.  [bootstrap] calls
    [bootstrap_finished] on the runtime exactly once when it returns outside
    of [-Xint] mode, and not at all when it returns at once in [-Xint] mode,
    when it is still in its loop, or when it found no runtime. *)
Theorem bootstrap_notifies_once (fuel : nat) (s : State W) :
  finish_notifications (trace (state_of (bootstrap fuel s)))
  = (finish_notifications (trace s)
     + match bootstrap fuel s with
       | Returns _ => if Mode_eqb (Arguments_mode (flags s)) _int then 0 else 1
       | _ => 0
       end)%nat.
Proof.
  destruct (Mode_eqb (Arguments_mode (flags s)) _int) eqn:Hm.
  - unfold bootstrap. rewrite Hm. simpl. lia.
  - apply Mode_eqb_int in Hm. rewrite (bootstrap_unfold fuel s Hm).
    destruct (before_poll_spec s) as (_ & _ & Hn0 & _).
    destruct (poll_polled fuel true 0 (before_poll s)) as (evs & Ht & Hp & _).
    assert (Hn : finish_notifications (trace (state_of (poll fuel true 0 (before_poll s))))
                 = finish_notifications (trace s)).
    { rewrite Ht, finish_notifications_app, (poll_events_finish evs Hp), Hn0. lia. }
    destruct (poll fuel true 0 (before_poll s)) as [s5 | e s5 | s5]; simpl in *;
      try lia.
    destruct (bootstrap_finish_spec (os_javaTimeMillis (world s))
                (CompileTheWorld (flags s)) s5)
      as (s2 & _ & _ & _ & _ & Hn2 & Hout).
    destruct (JVMCI_java_runtime (world s2)); rewrite Hout; simpl.
    + rewrite finish_notifications_app, Hn2, Hn. simpl. lia.
    + rewrite Hn2, Hn. lia.
Qed.

End BootstrapOutput.

(** ** The lifecycle state over sequences of operations *)

Section Invariants.

Context {W : Type} `{External W}.

Lemma bootstrap_compiler_state (fuel : nat) (s : State W) :
  _compiler_state (compiler (state_of (bootstrap fuel s))) = _compiler_state (compiler s)
  /\ (_bootstrap_compilation_request_handled (compiler s) = true ->
      _bootstrap_compilation_request_handled (compiler (state_of (bootstrap fuel s)))
      = true).
Proof.
  destruct (Mode_eqb (Arguments_mode (flags s)) _int) eqn:Hm.
  - unfold bootstrap. rewrite Hm. simpl. auto.
  - apply Mode_eqb_int in Hm.
    destruct (bootstrap_observations fuel s Hm) as (calls & b & _ & _ & Hc).
    rewrite Hc. simpl.
    destruct (fold_worker_calls_state calls (compiler s)) as (-> & _).
    split; [reflexivity |]. intros Hh. apply fold_worker_calls_handled. now left.
Qed.

Lemma run_operation_keeps (s : State W) (op : Operation) :
  (_compiler_state (compiler s) = initialized ->
   _compiler_state (compiler (run_operation s op)) = initialized)
  /\ (_bootstrap_compilation_request_handled (compiler s) = true ->
      _bootstrap_compilation_request_handled (compiler (run_operation s op)) = true).
Proof.
  destruct op as [| fuel | k]; cbn [run_operation].
  - split; intros Hx.
    + rewrite initialize_noop; auto.
    + destruct (initialize_cases s) as [(_ & Hen & Hst) | (_ & ->)]; [| exact Hx].
      now rewrite (initialize_first s Hen Hst).
  - destruct (bootstrap_compiler_state fuel s) as (-> & Hh). auto.
  - destruct k; simpl; auto.
Qed.

(** X13. Two one-way switches.  Over any sequence of calls of [initialize],
    runs of [bootstrap] (ended or not) and worker calls, a compiler that is
    initialized stays initialized, and a handled flag that is set stays
    set. *)
Theorem one_way_switches (ops : list Operation) (s : State W) :
  (_compiler_state (compiler s) = initialized ->
   _compiler_state (compiler (run_operations ops s)) = initialized)
  /\ (_bootstrap_compilation_request_handled (compiler s) = true ->
      _bootstrap_compilation_request_handled (compiler (run_operations ops s)) = true).
Proof.
  unfold run_operations. revert s.
  induction ops as [|op ops IH]; intros s; simpl.
  - auto.
  - destruct (run_operation_keeps s op) as (H1 & H2).
    destruct (IH (run_operation s op)) as (H3 & H4). auto.
Qed.

End Invariants.

(** ** The startup notification over sequences of operations *)

Lemma poll_events_startup (evs : list Event) :
  forallb poll_event evs = true -> startup_notifications evs = O.
Proof.
  induction evs as [|e evs IH]; simpl; [reflexivity|].
  intros Hall. apply andb_prop in Hall as [He Hall].
  destruct e; simpl in *; try discriminate; auto.
Qed.

Lemma startup_notifications_jobs (jobs : list CompileJob) :
  startup_notifications (map Broker_compile_method jobs) = O.
Proof. induction jobs; simpl; auto. Qed.

Section Startup.

Context {W : Type} `{External W}.

Lemma bootstrap_finish_startup (start : Z) (ctw : bool) (s : State W) :
  startup_notifications (trace (state_of (bootstrap_finish start ctw s)))
  = startup_notifications (trace s).
Proof.
  unfold bootstrap_finish.
  destruct (PrintBootstrap (flags s)); simpl;
    match goal with
    | |- context [JVMCI_java_runtime ?w] => destruct (JVMCI_java_runtime w)
    end; simpl; rewrite ?startup_notifications_app; simpl; lia.
Qed.

Lemma bootstrap_startup (fuel : nat) (s : State W) :
  startup_notifications (trace (state_of (bootstrap fuel s)))
  = startup_notifications (trace s).
Proof.
  destruct (Mode_eqb (Arguments_mode (flags s)) _int) eqn:Hm.
  - unfold bootstrap. now rewrite Hm.
  - apply Mode_eqb_int in Hm. rewrite (bootstrap_unfold fuel s Hm).
    destruct (before_poll_trace s) as (Ht0 & _).
    destruct (poll_polled fuel true 0 (before_poll s)) as (evs & Ht & Hp & _).
    assert (Hn : startup_notifications (trace (state_of (poll fuel true 0 (before_poll s))))
                 = startup_notifications (trace s)).
    { rewrite Ht, Ht0, !startup_notifications_app, startup_notifications_jobs,
        (poll_events_startup evs Hp).
      destruct (PrintBootstrap (flags s)); simpl; lia. }
    destruct (poll fuel true 0 (before_poll s)) as [s5 | e s5 | s5]; simpl in *; auto.
    now rewrite bootstrap_finish_startup.
Qed.

Lemma run_operation_startup (s : State W) (op : Operation) :
  (_compiler_state (compiler s) = initialized ->
   startup_notifications (trace (run_operation s op)) = startup_notifications (trace s))
  /\ (startup_notifications (trace (run_operation s op)) = startup_notifications (trace s)
      \/ (_compiler_state (compiler s) = uninitialized
          /\ _compiler_state (compiler (run_operation s op)) = initialized
          /\ startup_notifications (trace (run_operation s op))
             = S (startup_notifications (trace s)))).
Proof.
  destruct op as [| fuel | k]; cbn [run_operation].
  - split.
    + intros Hst. rewrite initialize_noop; auto.
    + destruct (initialize_cases s) as [(_ & Hen & Hst) | (_ & ->)]; [| now left].
      right. rewrite (initialize_first s Hen Hst). simpl.
      rewrite startup_notifications_app. simpl. repeat split; auto. lia.
  - rewrite bootstrap_startup. auto.
  - simpl. auto.
Qed.

(** X14. One startup notification in a lifetime.  Over any sequence of
    calls of [initialize], runs of [bootstrap] (ended or not) and worker
    calls, [CompilationPolicy::completed_vm_startup] is called at most once,
    and not at all when the compiler is initialized to begin with. *)
Theorem startup_notified_at_most_once (ops : list Operation) (s : State W) :
  (startup_notifications (trace (run_operations ops s))
   <= S (startup_notifications (trace s)))%nat
  /\ (_compiler_state (compiler s) = initialized ->
      startup_notifications (trace (run_operations ops s))
      = startup_notifications (trace s)).
Proof.
  unfold run_operations. revert s.
  induction ops as [|op ops IH]; intros s; simpl.
  - split; auto.
  - destruct (IH (run_operation s op)) as (IHle & IHeq).
    destruct (run_operation_startup s op) as (Hinit & Hstep).
    destruct (run_operation_keeps s op) as (Hkeep & _).
    split.
    + destruct Hstep as [Heq | (_ & Hst & Hs)].
      * lia.
      * rewrite (IHeq Hst). lia.
    + intros Hst. rewrite (IHeq (Hkeep Hst)). now apply Hinit.
Qed.

End Startup.

(** * Further runs on the simulated VM *)

Lemma worker_calls_count_witness :
  let calls := [Call_inc_methods_compiled; Call_inc_global_compilation_ticks;
                Call_set_bootstrap_compilation_request_handled;
                Call_inc_methods_compiled] in
  _methods_compiled (fold_left apply_worker_call calls fresh_compiler) = 2
  /\ _global_compilation_ticks (fold_left apply_worker_call calls fresh_compiler) = 3.
Proof.
  assert (Hint : is_int 0) by (unfold is_int, INT_MIN, INT_MAX; lia).
  pose proof (worker_calls_count
                [Call_inc_methods_compiled; Call_inc_global_compilation_ticks;
                 Call_set_bootstrap_compilation_request_handled;
                 Call_inc_methods_compiled] fresh_compiler Hint Hint)
    as (Hm & Ht & _).
  split; [exact Hm | exact Ht].
Defined.

Lemma bootstrap_CompileTheWorld_witness :
  CompileTheWorld (flags ctw_state) = true
  /\ match bootstrap 3 ctw_state with
     | Returns s' => flags s' = flags ctw_state
     | Fatal _ s' => CompileTheWorld (flags s') = false
     | Polling s' => CompileTheWorld (flags s') = false
     end
  /\ match bootstrap 2 ctw_state with
     | Returns s' => flags s' = flags ctw_state
     | Fatal _ s' => CompileTheWorld (flags s') = false
     | Polling s' => CompileTheWorld (flags s') = false
     end.
Proof.
  split; [reflexivity | split].
  - apply (bootstrap_CompileTheWorld_scoped 3 ctw_state). discriminate.
  - apply (bootstrap_CompileTheWorld_scoped 2 ctw_state). discriminate.
Defined.

Lemma bootstrap_suspends_policy_witness :
  match bootstrap 1 quiet_state with
  | Polling s' =>
      _bootstrapping (compiler s') = true
      /\ forall g (w : Sim) method,
           force_comp_at_level_simple (compiler s') g w method = false
  | Returns s' | Fatal _ s' =>
      _bootstrapping (compiler s') = false
      /\ forall g (w : Sim) method,
           force_comp_at_level_simple (compiler s') g w method
           = force_comp_at_level_simple fresh_compiler g w method
  end.
Proof.
  apply (bootstrap_suspends_policy 1 quiet_state). discriminate.
Defined.

Lemma bootstrap_ends_when_drained_witness :
  finished (bootstrap 3 quiet_state) = true /\ bootstrap_terminates quiet_state.
Proof.
  apply (bootstrap_ends_when_drained 2 quiet_state).
  - discriminate.
  - reflexivity.
  - right. right. exists O. split; [lia |]. vm_compute. discriminate.
Defined.

Lemma bootstrap_waits_for_queue_witness :
  (finished (bootstrap 2 quiet_state) = true ->
   exists k, (k < 2)%nat /\ queue_size_at k (world (before_poll quiet_state)) = 0)
  /\ ((forall k, (k < 2)%nat -> queue_size_at k (world (before_poll quiet_state)) <> 0) ->
      exists s', bootstrap 2 quiet_state = Polling s').
Proof.
  apply (bootstrap_waits_for_queue 2 quiet_state). discriminate.
Defined.

Lemma bootstrap_sleeps_witness :
  exists n,
    sleeps (trace (state_of (bootstrap 5 quiet_state)))
    = sleeps (trace quiet_state) ++ repeat (100, true) n
    /\ (n <= 5)%nat
    /\ (finished (bootstrap 5 quiet_state) = true -> (1 <= n)%nat)
    /\ (finished (bootstrap 5 quiet_state) = false -> n = 5%nat).
Proof.
  apply (bootstrap_sleeps 5 quiet_state). discriminate.
Defined.

Lemma bootstrap_silent_witness :
  tty_output (trace (state_of (bootstrap 3 quiet_state))) = tty_output (trace quiet_state).
Proof.
  apply (bootstrap_silent 3 quiet_state). reflexivity.
Defined.

Lemma bootstrap_submits_before_polling_witness :
  exists pre post : list Event,
    trace (state_of (bootstrap 3 quiet_state)) = trace quiet_state ++ pre ++ post
    /\ sleeps pre = []
    /\ submitted pre
       = map bootstrap_job
           (filter is_baseline (Object_klass_methods (world quiet_state)))
    /\ submitted post = [].
Proof.
  apply (bootstrap_submits_before_polling 3 quiet_state). discriminate.
Defined.

Lemma one_way_switches_witness :
  let ops := [Do_bootstrap 3; Do_initialize; Do_worker_call Call_inc_methods_compiled;
              Do_initialize; Do_bootstrap 1] in
  _compiler_state (compiler (run_operations ops (initialize quiet_state))) = initialized.
Proof.
  apply (one_way_switches
           [Do_bootstrap 3; Do_initialize; Do_worker_call Call_inc_methods_compiled;
            Do_initialize; Do_bootstrap 1] (initialize quiet_state)).
  reflexivity.
Defined.

Lemma startup_notified_witness :
  let ops := [Do_initialize; Do_bootstrap 3; Do_initialize;
              Do_worker_call Call_inc_global_compilation_ticks; Do_initialize] in
  startup_notifications (trace (run_operations ops (initialize quiet_state)))
  = startup_notifications (trace (initialize quiet_state)).
Proof.
  apply (startup_notified_at_most_once
           [Do_initialize; Do_bootstrap 3; Do_initialize;
            Do_worker_call Call_inc_global_compilation_ticks; Do_initialize]
           (initialize quiet_state)).
  reflexivity.
Defined.
